(** * Session lifecycle of the PDCurses port: [pdc_initscr.c]

    A shallow embedding of [apps/graphics/pdcurs34/pdcurses/pdc_initscr.c]
    (the non-multithreaded configuration, where [SP], [curscr], [stdscr],
    [pdc_lastscr], [LINES] and [COLS] are process-wide globals) and the
    properties of its session life cycle: [Xinitscr]/[initscr], [endwin],
    [isendwin], [delscreen], [resize_term] and [is_termresized].

    C [int]s are modelled as [Z]: every arithmetic operation of the file is
    an increment, a decrement or a subtraction of row counts, and signed
    overflow is undefined in C.  Pointers to windows are [option WINDOW]
    ([None] is [NULL]); the three screen windows are distinct allocations,
    so no aliasing arises between them. *)

From Stdlib Require Import ZArith List String Ascii Bool Lia DecimalString.
Import ListNotations.
Local Open Scope string_scope.
Local Open Scope Z_scope.

(** ** Constants of [curses.h] *)

Definition OK : Z := 0.
Definition ERR : Z := -1.
Definition BUTTON_RELEASED : Z := 0.

(** ** Data model *)

(** [WINDOW]: the fields of the C structure that the life cycle reads or
    writes.  Cell contents are not modelled; [_touched] stands for "every
    line of the window is marked changed". *)
#[projections(primitive)]
Record WINDOW : Type := mkWINDOW {
  _cury : Z;
  _curx : Z;
  _maxy : Z;
  _maxx : Z;
  _begy : Z;
  _begx : Z;
  _attrs : Z;
  _clear : bool;
  _touched : bool
}.

Definition set__cury (v : Z) (r : WINDOW) : WINDOW :=
  mkWINDOW v (_curx r) (_maxy r) (_maxx r) (_begy r) (_begx r) (_attrs r)
    (_clear r) (_touched r).

Definition set__curx (v : Z) (r : WINDOW) : WINDOW :=
  mkWINDOW (_cury r) v (_maxy r) (_maxx r) (_begy r) (_begx r) (_attrs r)
    (_clear r) (_touched r).

Definition set__maxy (v : Z) (r : WINDOW) : WINDOW :=
  mkWINDOW (_cury r) (_curx r) v (_maxx r) (_begy r) (_begx r) (_attrs r)
    (_clear r) (_touched r).

Definition set__maxx (v : Z) (r : WINDOW) : WINDOW :=
  mkWINDOW (_cury r) (_curx r) (_maxy r) v (_begy r) (_begx r) (_attrs r)
    (_clear r) (_touched r).

Definition set__attrs (v : Z) (r : WINDOW) : WINDOW :=
  mkWINDOW (_cury r) (_curx r) (_maxy r) (_maxx r) (_begy r) (_begx r) v
    (_clear r) (_touched r).

Definition set__clear (v : bool) (r : WINDOW) : WINDOW :=
  mkWINDOW (_cury r) (_curx r) (_maxy r) (_maxx r) (_begy r) (_begx r)
    (_attrs r) v (_touched r).

Definition set__touched (v : bool) (r : WINDOW) : WINDOW :=
  mkWINDOW (_cury r) (_curx r) (_maxy r) (_maxx r) (_begy r) (_begx r)
    (_attrs r) (_clear r) v.

(** [SCREEN]: the session record [*SP].  [scr_addr] is a ghost field, the
    address of the allocation, which [set_term] and [delscreen] compare
    with their pointer argument. *)
#[projections(primitive)]
Record SCREEN : Type := mkSCREEN {
  alive : bool;
  autocr : bool;
  cbreak : bool;
  echo : bool;
  raw_inp : bool;
  raw_out : bool;
  save_key_modifiers : bool;
  return_key_modifiers : bool;
  visibility : Z;
  resized : bool;
  _preserve : bool;
  _trap_mbe : Z;
  _map_mbe_to_key : Z;
  linesrippedoffcnt : Z;
  linesrippedoffontop : Z;
  delaytenths : Z;
  line_color : Z;
  orig_cursor : Z;
  lines : Z;
  cols : Z;
  slklines : Z;
  slk_winptr : option WINDOW;
  scr_addr : positive
}.

Definition set_alive (v : bool) (r : SCREEN) : SCREEN :=
  mkSCREEN v (autocr r) (cbreak r) (echo r) (raw_inp r) (raw_out r)
    (save_key_modifiers r) (return_key_modifiers r) (visibility r) (resized r)
    (_preserve r) (_trap_mbe r) (_map_mbe_to_key r) (linesrippedoffcnt r)
    (linesrippedoffontop r) (delaytenths r) (line_color r) (orig_cursor r)
    (lines r) (cols r) (slklines r) (slk_winptr r) (scr_addr r).

Definition set_resized (v : bool) (r : SCREEN) : SCREEN :=
  mkSCREEN (alive r) (autocr r) (cbreak r) (echo r) (raw_inp r) (raw_out r)
    (save_key_modifiers r) (return_key_modifiers r) (visibility r) v
    (_preserve r) (_trap_mbe r) (_map_mbe_to_key r) (linesrippedoffcnt r)
    (linesrippedoffontop r) (delaytenths r) (line_color r) (orig_cursor r)
    (lines r) (cols r) (slklines r) (slk_winptr r) (scr_addr r).

Definition set_linesrippedoffcnt (v : Z) (r : SCREEN) : SCREEN :=
  mkSCREEN (alive r) (autocr r) (cbreak r) (echo r) (raw_inp r) (raw_out r)
    (save_key_modifiers r) (return_key_modifiers r) (visibility r) (resized r)
    (_preserve r) (_trap_mbe r) (_map_mbe_to_key r) v (linesrippedoffontop r)
    (delaytenths r) (line_color r) (orig_cursor r) (lines r) (cols r)
    (slklines r) (slk_winptr r) (scr_addr r).

Definition set_linesrippedoffontop (v : Z) (r : SCREEN) : SCREEN :=
  mkSCREEN (alive r) (autocr r) (cbreak r) (echo r) (raw_inp r) (raw_out r)
    (save_key_modifiers r) (return_key_modifiers r) (visibility r) (resized r)
    (_preserve r) (_trap_mbe r) (_map_mbe_to_key r) (linesrippedoffcnt r) v
    (delaytenths r) (line_color r) (orig_cursor r) (lines r) (cols r)
    (slklines r) (slk_winptr r) (scr_addr r).

Definition set_lines (v : Z) (r : SCREEN) : SCREEN :=
  mkSCREEN (alive r) (autocr r) (cbreak r) (echo r) (raw_inp r) (raw_out r)
    (save_key_modifiers r) (return_key_modifiers r) (visibility r) (resized r)
    (_preserve r) (_trap_mbe r) (_map_mbe_to_key r) (linesrippedoffcnt r)
    (linesrippedoffontop r) (delaytenths r) (line_color r) (orig_cursor r) v
    (cols r) (slklines r) (slk_winptr r) (scr_addr r).

Definition set_cols (v : Z) (r : SCREEN) : SCREEN :=
  mkSCREEN (alive r) (autocr r) (cbreak r) (echo r) (raw_inp r) (raw_out r)
    (save_key_modifiers r) (return_key_modifiers r) (visibility r) (resized r)
    (_preserve r) (_trap_mbe r) (_map_mbe_to_key r) (linesrippedoffcnt r)
    (linesrippedoffontop r) (delaytenths r) (line_color r) (orig_cursor r)
    (lines r) v (slklines r) (slk_winptr r) (scr_addr r).

Definition set_slklines (v : Z) (r : SCREEN) : SCREEN :=
  mkSCREEN (alive r) (autocr r) (cbreak r) (echo r) (raw_inp r) (raw_out r)
    (save_key_modifiers r) (return_key_modifiers r) (visibility r) (resized r)
    (_preserve r) (_trap_mbe r) (_map_mbe_to_key r) (linesrippedoffcnt r)
    (linesrippedoffontop r) (delaytenths r) (line_color r) (orig_cursor r)
    (lines r) (cols r) v (slk_winptr r) (scr_addr r).

Definition set_slk_winptr (v : option WINDOW) (r : SCREEN) : SCREEN :=
  mkSCREEN (alive r) (autocr r) (cbreak r) (echo r) (raw_inp r) (raw_out r)
    (save_key_modifiers r) (return_key_modifiers r) (visibility r) (resized r)
    (_preserve r) (_trap_mbe r) (_map_mbe_to_key r) (linesrippedoffcnt r)
    (linesrippedoffontop r) (delaytenths r) (line_color r) (orig_cursor r)
    (lines r) (cols r) (slklines r) v (scr_addr r).

Record MOUSE_STATUS : Type := mkMOUSE {
  mouse_x : Z;
  mouse_y : Z;
  button : list Z;
  changes : Z
}.

(** A ripped-off-line registration ([RIPPEDOFFLINE]): [line] is negative
    for a bottom line and positive for a top line; [init] is the caller's
    callback, which receives the new window (possibly [NULL]) and the
    width.  The callback's effect on the window is its result here. *)
Record RIPPEDOFFLINE : Type := mkRIPPED {
  line : Z;
  init : option WINDOW -> Z -> option WINDOW
}.

(** The physical terminal as the platform driver sees it. *)
Record Terminal : Type := mkTerminal {
  t_rows : Z;
  t_cols : Z
}.

(** The globals of the file, followed by what its collaborators keep:
    [ripped_wins] logs the window each ripped-off-line callback left
    behind, in call order; [allocs] counts window allocations so far;
    [c_sh_tty] and [c_pr_tty] are the modes saved by [def_shell_mode] and
    [def_prog_mode]; [terminal] is the physical terminal and [term_open] says
    whether the driver holds it. *)
#[projections(primitive)]
Record State : Type := mkState {
  SP : option SCREEN;
  curscr : option WINDOW;
  stdscr : option WINDOW;
  pdc_lastscr : option WINDOW;
  LINES : Z;
  COLS : Z;
  TABSIZE : Z;
  ttytype : string;
  Mouse_status : MOUSE_STATUS;
  pdc_mouse_status : MOUSE_STATUS;
  linesripped : list RIPPEDOFFLINE;
  linesrippedoff : Z;
  ripped_wins : list (option WINDOW);
  allocs : nat;
  stderr : list string;
  c_sh_tty : option SCREEN;
  c_pr_tty : option SCREEN;
  terminal : Terminal;
  term_open : bool
}.

Definition set_SP (v : option SCREEN) (r : State) : State :=
  mkState v (curscr r) (stdscr r) (pdc_lastscr r) (LINES r) (COLS r)
    (TABSIZE r) (ttytype r) (Mouse_status r) (pdc_mouse_status r)
    (linesripped r) (linesrippedoff r) (ripped_wins r) (allocs r) (stderr r)
    (c_sh_tty r) (c_pr_tty r) (terminal r) (term_open r).

Definition set_curscr (v : option WINDOW) (r : State) : State :=
  mkState (SP r) v (stdscr r) (pdc_lastscr r) (LINES r) (COLS r) (TABSIZE r)
    (ttytype r) (Mouse_status r) (pdc_mouse_status r) (linesripped r)
    (linesrippedoff r) (ripped_wins r) (allocs r) (stderr r) (c_sh_tty r)
    (c_pr_tty r) (terminal r) (term_open r).

Definition set_stdscr (v : option WINDOW) (r : State) : State :=
  mkState (SP r) (curscr r) v (pdc_lastscr r) (LINES r) (COLS r) (TABSIZE r)
    (ttytype r) (Mouse_status r) (pdc_mouse_status r) (linesripped r)
    (linesrippedoff r) (ripped_wins r) (allocs r) (stderr r) (c_sh_tty r)
    (c_pr_tty r) (terminal r) (term_open r).

Definition set_pdc_lastscr (v : option WINDOW) (r : State) : State :=
  mkState (SP r) (curscr r) (stdscr r) v (LINES r) (COLS r) (TABSIZE r)
    (ttytype r) (Mouse_status r) (pdc_mouse_status r) (linesripped r)
    (linesrippedoff r) (ripped_wins r) (allocs r) (stderr r) (c_sh_tty r)
    (c_pr_tty r) (terminal r) (term_open r).

Definition set_LINES (v : Z) (r : State) : State :=
  mkState (SP r) (curscr r) (stdscr r) (pdc_lastscr r) v (COLS r) (TABSIZE r)
    (ttytype r) (Mouse_status r) (pdc_mouse_status r) (linesripped r)
    (linesrippedoff r) (ripped_wins r) (allocs r) (stderr r) (c_sh_tty r)
    (c_pr_tty r) (terminal r) (term_open r).

Definition set_COLS (v : Z) (r : State) : State :=
  mkState (SP r) (curscr r) (stdscr r) (pdc_lastscr r) (LINES r) v (TABSIZE r)
    (ttytype r) (Mouse_status r) (pdc_mouse_status r) (linesripped r)
    (linesrippedoff r) (ripped_wins r) (allocs r) (stderr r) (c_sh_tty r)
    (c_pr_tty r) (terminal r) (term_open r).

Definition set_ttytype (v : string) (r : State) : State :=
  mkState (SP r) (curscr r) (stdscr r) (pdc_lastscr r) (LINES r) (COLS r)
    (TABSIZE r) v (Mouse_status r) (pdc_mouse_status r) (linesripped r)
    (linesrippedoff r) (ripped_wins r) (allocs r) (stderr r) (c_sh_tty r)
    (c_pr_tty r) (terminal r) (term_open r).

Definition set_Mouse_status (v : MOUSE_STATUS) (r : State) : State :=
  mkState (SP r) (curscr r) (stdscr r) (pdc_lastscr r) (LINES r) (COLS r)
    (TABSIZE r) (ttytype r) v (pdc_mouse_status r) (linesripped r)
    (linesrippedoff r) (ripped_wins r) (allocs r) (stderr r) (c_sh_tty r)
    (c_pr_tty r) (terminal r) (term_open r).

Definition set_pdc_mouse_status (v : MOUSE_STATUS) (r : State) : State :=
  mkState (SP r) (curscr r) (stdscr r) (pdc_lastscr r) (LINES r) (COLS r)
    (TABSIZE r) (ttytype r) (Mouse_status r) v (linesripped r)
    (linesrippedoff r) (ripped_wins r) (allocs r) (stderr r) (c_sh_tty r)
    (c_pr_tty r) (terminal r) (term_open r).

Definition set_linesripped (v : list RIPPEDOFFLINE) (r : State) : State :=
  mkState (SP r) (curscr r) (stdscr r) (pdc_lastscr r) (LINES r) (COLS r)
    (TABSIZE r) (ttytype r) (Mouse_status r) (pdc_mouse_status r) v
    (linesrippedoff r) (ripped_wins r) (allocs r) (stderr r) (c_sh_tty r)
    (c_pr_tty r) (terminal r) (term_open r).

Definition set_linesrippedoff (v : Z) (r : State) : State :=
  mkState (SP r) (curscr r) (stdscr r) (pdc_lastscr r) (LINES r) (COLS r)
    (TABSIZE r) (ttytype r) (Mouse_status r) (pdc_mouse_status r)
    (linesripped r) v (ripped_wins r) (allocs r) (stderr r) (c_sh_tty r)
    (c_pr_tty r) (terminal r) (term_open r).

Definition set_ripped_wins (v : list (option WINDOW)) (r : State) : State :=
  mkState (SP r) (curscr r) (stdscr r) (pdc_lastscr r) (LINES r) (COLS r)
    (TABSIZE r) (ttytype r) (Mouse_status r) (pdc_mouse_status r)
    (linesripped r) (linesrippedoff r) v (allocs r) (stderr r) (c_sh_tty r)
    (c_pr_tty r) (terminal r) (term_open r).

Definition set_allocs (v : nat) (r : State) : State :=
  mkState (SP r) (curscr r) (stdscr r) (pdc_lastscr r) (LINES r) (COLS r)
    (TABSIZE r) (ttytype r) (Mouse_status r) (pdc_mouse_status r)
    (linesripped r) (linesrippedoff r) (ripped_wins r) v (stderr r)
    (c_sh_tty r) (c_pr_tty r) (terminal r) (term_open r).

Definition set_stderr (v : list string) (r : State) : State :=
  mkState (SP r) (curscr r) (stdscr r) (pdc_lastscr r) (LINES r) (COLS r)
    (TABSIZE r) (ttytype r) (Mouse_status r) (pdc_mouse_status r)
    (linesripped r) (linesrippedoff r) (ripped_wins r) (allocs r) v
    (c_sh_tty r) (c_pr_tty r) (terminal r) (term_open r).

Definition set_c_sh_tty (v : option SCREEN) (r : State) : State :=
  mkState (SP r) (curscr r) (stdscr r) (pdc_lastscr r) (LINES r) (COLS r)
    (TABSIZE r) (ttytype r) (Mouse_status r) (pdc_mouse_status r)
    (linesripped r) (linesrippedoff r) (ripped_wins r) (allocs r) (stderr r) v
    (c_pr_tty r) (terminal r) (term_open r).

Definition set_c_pr_tty (v : option SCREEN) (r : State) : State :=
  mkState (SP r) (curscr r) (stdscr r) (pdc_lastscr r) (LINES r) (COLS r)
    (TABSIZE r) (ttytype r) (Mouse_status r) (pdc_mouse_status r)
    (linesripped r) (linesrippedoff r) (ripped_wins r) (allocs r) (stderr r)
    (c_sh_tty r) v (terminal r) (term_open r).

Definition set_terminal (v : Terminal) (r : State) : State :=
  mkState (SP r) (curscr r) (stdscr r) (pdc_lastscr r) (LINES r) (COLS r)
    (TABSIZE r) (ttytype r) (Mouse_status r) (pdc_mouse_status r)
    (linesripped r) (linesrippedoff r) (ripped_wins r) (allocs r) (stderr r)
    (c_sh_tty r) (c_pr_tty r) v (term_open r).

Definition set_term_open (v : bool) (r : State) : State :=
  mkState (SP r) (curscr r) (stdscr r) (pdc_lastscr r) (LINES r) (COLS r)
    (TABSIZE r) (ttytype r) (Mouse_status r) (pdc_mouse_status r)
    (linesripped r) (linesrippedoff r) (ripped_wins r) (allocs r) (stderr r)
    (c_sh_tty r) (c_pr_tty r) (terminal r) v.

(** ** Outcomes and the monad of the embedding

    A call either returns, or ends the process through [exit], or
    dereferences a [NULL] pointer.  The state is threaded explicitly. *)

Inductive Outcome (A : Type) : Type :=
| Ret (a : A) (st : State)
| Exit (code : Z) (st : State)
| Fault (st : State).

Arguments Ret {A} a st.
Arguments Exit {A} code st.
Arguments Fault {A} st.

Definition M (A : Type) : Type := State -> Outcome A.

Definition ret {A : Type} (a : A) : M A := fun st => Ret a st.

Definition bind {A B : Type} (m : M A) (k : A -> M B) : M B :=
  fun st =>
    match m st with
    | Ret a st' => k a st'
    | Exit c st' => Exit c st'
    | Fault st' => Fault st'
    end.

Definition gets {A : Type} (f : State -> A) : M A := fun st => Ret (f st) st.
Definition modify (f : State -> State) : M unit := fun st => Ret tt (f st).
Definition exit {A : Type} (code : Z) : M A := fun st => Exit code st.
Definition fault {A : Type} : M A := fun st => Fault st.

Notation "x <- c1 ;; c2" := (bind c1 (fun x => c2))
  (at level 61, c1 at next level, right associativity).
Notation "c1 ;; c2" := (bind c1 (fun _ => c2))
  (at level 61, right associativity).

(** [SP->f] as an rvalue and [SP->f = v]: both fault when [SP] is [NULL]. *)
Definition SP_get {A : Type} (f : SCREEN -> A) : M A :=
  fun st => match SP st with Some s => Ret (f s) st | None => Fault st end.

Definition SP_set (f : SCREEN -> SCREEN) : M unit :=
  fun st =>
    match SP st with
    | Some s => Ret tt (set_SP (Some (f s)) st)
    | None => Fault st
    end.

(** The test [SP && SP->alive]. *)
Definition SP_alive (st : State) : bool :=
  match SP st with Some s => alive s | None => false end.

(** The window pointers the file passes around. *)
Inductive winvar : Type := Vcurscr | Vstdscr | Vlastscr | Vslk.

Definition win_get (v : winvar) (st : State) : option WINDOW :=
  match v with
  | Vcurscr => curscr st
  | Vstdscr => stdscr st
  | Vlastscr => pdc_lastscr st
  | Vslk => match SP st with Some s => slk_winptr s | None => None end
  end.

Definition win_put (v : winvar) (w : option WINDOW) (st : State) : State :=
  match v with
  | Vcurscr => set_curscr w st
  | Vstdscr => set_stdscr w st
  | Vlastscr => set_pdc_lastscr w st
  | Vslk =>
      match SP st with
      | Some s => set_SP (Some (set_slk_winptr w s)) st
      | None => st
      end
  end.

(** [v->f = x] written directly in the source: faults on [NULL]. *)
Definition win_set (v : winvar) (f : WINDOW -> WINDOW) : M unit :=
  fun st =>
    match win_get v st with
    | Some w => Ret tt (win_put v (Some (f w)) st)
    | None => Fault st
    end.

Definition list_set {A : Type} (n : nat) (a : A) (l : list A) : list A :=
  firstn n l ++ match skipn n l with [] => [] | _ :: t => a :: t end.

(** [BUTTON_STATUS(n) = v]: the macros [MOUSE_X_POS], [MOUSE_Y_POS] and
    [BUTTON_STATUS] of [curses.h] name fields of [Mouse_status], the last
    one [Mouse_status.button[n-1]]. *)
Definition set_BUTTON_STATUS (n : nat) (v : Z) (m : MOUSE_STATUS) : MOUSE_STATUS :=
  mkMOUSE (mouse_x m) (mouse_y m) (list_set (pred n) v (button m)) (changes m).

Definition newline : string := String (ascii_of_nat 10) EmptyString.

Definition show_int (z : Z) : string := NilZero.string_of_int (Z.to_int z).

(** ** Collaborators that are not part of the file

    The platform driver, the allocator and the static soft-label-key
    configuration are parameters of the whole development. *)

Record Env : Type := mkEnv {
  (** [PDC_scr_open]: [None] is [ERR]; otherwise the freshly allocated
      session record as the driver filled it in. *)
  drv_scr_open : Z -> list string -> Terminal -> option SCREEN;
  drv_get_cursor_mode : Terminal -> Z;
  (** [PDC_resize_screen]: the status, the terminal afterwards, and the
      value the driver leaves in [SP->resized]. *)
  drv_resize_screen : Z -> Z -> Terminal -> option SCREEN -> Z * Terminal * bool;
  drv_sysname : string;
  (** Whether the n-th window allocation of the process succeeds. *)
  alloc_ok : nat -> bool;
  (** Soft label keys: enabled by [slk_init] before start-up, and how many
      rows the strip takes. *)
  slk_enabled : bool;
  slk_line_count : Z;
  (** The width in bits of the unsigned type [chtype], which [curses.h]
      declares. *)
  chtype_bits : Z
}.

Section Lifecycle.

Variable E : Env.

(** [(chtype)z]: the conversion to the unsigned type [chtype] keeps the
    low [chtype_bits] bits. *)
Definition to_chtype (z : Z) : Z := Z.land z (Z.ones (chtype_bits E)).

(** *** Platform driver *)

(** Modelled from the spec: [open_terminal(args) -> SessionHandle|Error]
    (the driver's [PDC_scr_open], absent from the sources): on success
    [SP] points to the record the driver allocated. *)
Definition PDC_scr_open (argc : Z) (argv : list string) : M Z :=
  fun st =>
    match drv_scr_open E argc argv (terminal st) with
    | Some s => Ret OK (set_term_open true (set_SP (Some s) st))
    | None => Ret ERR st
    end.

(** Modelled from the spec: [close_terminal()] (the driver's
    [PDC_scr_close]): releases the physical terminal only. *)
Definition PDC_scr_close : M unit := modify (set_term_open false).

(** Modelled from the spec: release of the session record and of the
    platform terminal resource (the driver's [PDC_scr_free]); the pointer
    [SP] itself is cleared by the caller. *)
Definition PDC_scr_free : M unit := modify (set_term_open false).

(** Modelled from the spec: [get_rows() -> int] (the driver's
    [PDC_get_rows]): the current height of the physical terminal. *)
Definition PDC_get_rows : M Z := gets (fun st => t_rows (terminal st)).

(** Modelled from the spec: [get_columns() -> int] (the driver's
    [PDC_get_columns]): the current width of the physical terminal. *)
Definition PDC_get_columns : M Z := gets (fun st => t_cols (terminal st)).

(** Modelled from the spec: the driver's query of the cursor shape
    ([PDC_get_cursor_mode]); the value is the driver's business. *)
Definition PDC_get_cursor_mode : M Z :=
  gets (fun st => drv_get_cursor_mode E (terminal st)).

(** Modelled from the spec: [resize_physical(rows, cols) -> Result] (the
    driver's [PDC_resize_screen]).  [resized] is the one session field
    the spec gives to the driver. *)
Definition PDC_resize_screen (nlines ncols : Z) : M Z :=
  fun st =>
    let '(r, t, flag) := drv_resize_screen E nlines ncols (terminal st) (SP st) in
    Ret r (set_terminal t
             (set_SP (option_map (set_resized flag) (SP st)) st)).

(** Modelled from the spec: the driver's query of the platform name
    ([PDC_sysname]). *)
Definition PDC_sysname : M string := ret (drv_sysname E).

(** Modelled from the spec: colour and attribute table set-up
    ([PDC_init_atrtab]) is a plain state container outside this core;
    the table is not part of the state here. *)
Definition PDC_init_atrtab : M unit := ret tt.

(** [fprintf(stderr, ...)] with the message already formatted. *)
Definition fprintf_stderr (msg : string) : M unit :=
  modify (fun st => set_stderr (stderr st ++ [msg]) st).

(** *** Window-buffer engine *)

(** Modelled from the spec: [create_window(h,w,y,x) -> WindowHandle]
    ([newwin], absent from the sources): a fresh, erased window of the
    requested geometry, or [NULL] when the allocation fails. *)
Definition newwin (nlines ncols begy begx : Z) : M (option WINDOW) :=
  fun st =>
    let st' := set_allocs (S (allocs st)) st in
    if alloc_ok E (allocs st)
    then Ret (Some (mkWINDOW 0 0 nlines ncols begy begx 0 false true)) st'
    else Ret None st'.

(** Engine calls on a window pointer: [ERR] and no effect on [NULL]. *)
Definition on_win (v : winvar) (f : WINDOW -> WINDOW) : M Z :=
  fun st =>
    match win_get v st with
    | Some w => Ret OK (win_put v (Some (f w)) st)
    | None => Ret ERR st
    end.

(** Modelled from the spec: [resize_window(handle,h,w)] ([wresize]): the
    window keeps its origin and takes the new size, or [ERR] when the
    handle is [NULL] or the allocation fails. *)
Definition wresize (v : winvar) (nlines ncols : Z) : M Z :=
  fun st =>
    match win_get v st with
    | None => Ret ERR st
    | Some w =>
        let st' := set_allocs (S (allocs st)) st in
        if alloc_ok E (allocs st)
        then Ret OK (win_put v (Some (set__maxy nlines (set__maxx ncols w))) st')
        else Ret ERR st'
    end.

(** Modelled from the spec: attribute setting of the engine
    ([wattrset]). *)
Definition wattrset (v : winvar) (attrs : Z) : M Z := on_win v (set__attrs attrs).

(** Modelled from the spec: [erase(handle)] ([werase]): every cell is
    blanked, so every line is changed, and the cursor goes home. *)
Definition werase (v : winvar) : M Z :=
  on_win v (fun w => set__touched true (set__cury 0 (set__curx 0 w))).

(** Modelled from the spec: erasure from the cursor to the bottom of the
    window ([wclrtobot]); at this granularity, the window is changed. *)
Definition wclrtobot (v : winvar) : M Z := on_win v (set__touched true).

(** Modelled from the spec: [mark_dirty(handle)] ([touchwin]). *)
Definition touchwin (v : winvar) : M Z := on_win v (set__touched true).

(** Modelled from the spec: the opposite of [mark_dirty] ([untouchwin]):
    the window is marked unchanged. *)
Definition untouchwin (v : winvar) : M Z := on_win v (set__touched false).

(** Modelled from the spec: cursor motion inside a window ([wmove]),
    refused outside its bounds. *)
Definition wmove (v : winvar) (y x : Z) : M Z :=
  fun st =>
    match win_get v st with
    | Some w =>
        if (0 <=? y) && (y <? _maxy w) && (0 <=? x) && (x <? _maxx w)
        then Ret OK (win_put v (Some (set__cury y (set__curx x w))) st)
        else Ret ERR st
    | None => Ret ERR st
    end.

(** Modelled from the spec: damage tracking of the engine
    ([wnoutrefresh]): the changes of the window are handed over to
    [curscr], after which the window itself is unchanged. *)
Definition wnoutrefresh (v : winvar) : M Z :=
  fun st =>
    match win_get v st with
    | Some w =>
        let st1 := win_put v (Some (set__touched false (set__clear false w))) st in
        Ret OK (if _touched w
                then win_put Vcurscr (option_map (set__touched true) (curscr st1)) st1
                else st1)
    | None => Ret ERR st
    end.

(** Modelled from the spec: [destroy_window(handle)] ([delwin]); the
    memory is not tracked and the caller clears the pointer. *)
Definition delwin (v : winvar) : M Z :=
  gets (fun st => match win_get v st with Some _ => OK | None => ERR end).

(** *** Saved terminal modes *)

(** Modelled from the spec: the shell-mode twin of [def_prog_mode]
    ([def_shell_mode]): a copy of [*SP] is kept. *)
Definition def_shell_mode : M unit := modify (fun st => set_c_sh_tty (SP st) st).

(** Modelled from the spec: "save the program's terminal mode"
    ([def_prog_mode]): a copy of [*SP] is kept. *)
Definition def_prog_mode : M unit := modify (fun st => set_c_pr_tty (SP st) st).

(** *** Soft label keys *)

(** Modelled from the spec: the soft-label-key subsystem ([slk_init],
    [slk_line_count], absent from the sources).  When the strip is enabled
    it takes [slk_line_count] rows at the bottom of the terminal; its
    window is created on first use. *)
Definition PDC_slk_initialize : M unit :=
  if slk_enabled E then
    SP_set (set_slklines (slk_line_count E)) ;;
    wp <- SP_get slk_winptr ;;
    match wp with
    | Some _ => touchwin Vslk ;; ret tt
    | None =>
        n <- SP_get slklines ;;
        l <- gets LINES ;;
        c <- gets COLS ;;
        w <- newwin n c (l - n) 0 ;;
        SP_set (set_slk_winptr w)
    end
  else ret tt.

(** Modelled from the spec: [slk_free()]: the strip's window is released;
    nothing happens without a session. *)
Definition PDC_slk_free : M unit :=
  modify (fun st => win_put Vslk None st).

(** Modelled from the spec: the strip's window is handed to [curscr]
    ([slk_noutrefresh]). *)
Definition slk_noutrefresh : M Z := wnoutrefresh Vslk.

(** ** The functions of [pdc_initscr.c] *)

Definition _curses_notice : string := "PDCurses 3.4 - Public Domain 2008".

(** Lines 166-181 of [Xinitscr]: the defaults written into [*SP]. *)
Definition Xinitscr_defaults : M unit :=
  SP_set (fun s =>
    {| alive := alive s;
       autocr := true;               (* cr -> lf by default *)
       raw_out := false;             (* tty I/O modes *)
       raw_inp := false;
       cbreak := true;
       save_key_modifiers := false;
       return_key_modifiers := false;
       echo := true;
       visibility := 1;
       resized := false;
       _trap_mbe := 0;
       _map_mbe_to_key := 0;
       linesrippedoffcnt := 0;
       linesrippedoffontop := 0;
       delaytenths := 0;
       line_color := -1;
       orig_cursor := orig_cursor s;
       _preserve := _preserve s;
       lines := lines s;
       cols := cols s;
       slklines := slklines s;
       slk_winptr := slk_winptr s;
       scr_addr := scr_addr s |}) ;;
  c <- PDC_get_cursor_mode ;;
  SP_set (fun s =>
    mkSCREEN (alive s) (autocr s) (cbreak s) (echo s) (raw_inp s) (raw_out s)
      (save_key_modifiers s) (return_key_modifiers s) (visibility s)
      (resized s) (_preserve s) (_trap_mbe s) (_map_mbe_to_key s)
      (linesrippedoffcnt s) (linesrippedoffontop s) (delaytenths s)
      (line_color s) c (lines s) (cols s) (slklines s) (slk_winptr s)
      (scr_addr s)).

(** One call of the callback [linesripped[i].init] on [win] and [COLS]. *)
Definition call_init (r : RIPPEDOFFLINE) (w : option WINDOW) (width : Z) : M unit :=
  modify (fun st => set_ripped_wins (ripped_wins st ++ [init r w width]) st).

(** Lines 215-229: [n] further rounds of the loop over [linesripped],
    starting at index [i].  A slot that was never registered holds a
    [NULL] callback, and calling it faults. *)
Fixpoint rip_loop (n i : nat) : M unit :=
  match n with
  | O => ret tt
  | S n' =>
      tbl <- gets linesripped ;;
      match nth_error tbl i with
      | None => fault
      | Some r =>
          (if line r <? 0 then
             c <- gets COLS ;;
             l <- gets LINES ;;
             w <- newwin 1 c (l - 1) 0 ;;
             call_init r w c
           else
             c <- gets COLS ;;
             top <- SP_get linesrippedoffontop ;;
             SP_set (set_linesrippedoffontop (top + 1)) ;;
             w <- newwin 1 c top 0 ;;
             call_init r w c) ;;
          SP_set (fun s => set_linesrippedoffcnt (linesrippedoffcnt s + 1) s) ;;
          modify (fun st => set_LINES (LINES st - 1) st) ;;
          rip_loop n' (S i)
      end
  end.

(** Lines 183-270 of [Xinitscr]: the screen windows. *)
Definition Xinitscr_screens : M (option WINDOW) :=
  l0 <- SP_get lines ;;
  modify (set_LINES l0) ;;
  c0 <- SP_get cols ;;
  modify (set_COLS c0) ;;
  L <- gets LINES ;;
  C <- gets COLS ;;
  if (L <? 2) || (C <? 2) then
    fprintf_stderr ("initscr(): LINES=" ++ show_int L ++ " COLS=" ++ show_int C
                    ++ ": too small." ++ newline) ;;
    exit 4
  else
  w <- newwin L C 0 0 ;;
  modify (set_curscr w) ;;
  match w with
  | None => fprintf_stderr ("initscr(): Unable to create curscr." ++ newline) ;; exit 2
  | Some _ =>
  w <- newwin L C 0 0 ;;
  modify (set_pdc_lastscr w) ;;
  match w with
  | None =>
      fprintf_stderr ("initscr(): Unable to create pdc_lastscr." ++ newline) ;; exit 2
  | Some _ =>
  wattrset Vlastscr (to_chtype (-1)) ;;  (* every attribute bit set *)
  werase Vlastscr ;;
  PDC_slk_initialize ;;
  k <- SP_get slklines ;;
  modify (fun st => set_LINES (LINES st - k) st) ;;
  (* We have to sort out ripped off lines here, and reduce the height of
     stdscr by the number of lines ripped off *)
  n <- gets linesrippedoff ;;
  rip_loop (Z.to_nat n) 0 ;;
  modify (set_linesrippedoff 0) ;;
  L <- gets LINES ;;
  C <- gets COLS ;;
  top <- SP_get linesrippedoffontop ;;
  w <- newwin L C top 0 ;;
  modify (set_stdscr w) ;;
  match w with
  | None => fprintf_stderr ("initscr(): Unable to create stdscr." ++ newline) ;; exit 1
  | Some _ =>
  wclrtobot Vstdscr ;;
  (* If preserving the existing screen, don't allow a screen clear *)
  p <- SP_get _preserve ;;
  (if p then
     untouchwin Vcurscr ;;
     untouchwin Vstdscr ;;
     win_set Vstdscr (set__clear false) ;;
     win_set Vcurscr (set__clear false)
   else
     win_set Vcurscr (set__clear true)) ;;
  PDC_init_atrtab ;;            (* set up default colors *)
  modify (fun st =>
    set_Mouse_status
      (set_BUTTON_STATUS 3 BUTTON_RELEASED
        (set_BUTTON_STATUS 2 BUTTON_RELEASED
          (set_BUTTON_STATUS 1 BUTTON_RELEASED
            (mkMOUSE (-1) (-1) (button (Mouse_status st))
                     (changes (Mouse_status st)))))) st) ;;
  modify (fun st =>
    set_Mouse_status
      (mkMOUSE (mouse_x (Mouse_status st)) (mouse_y (Mouse_status st))
               (button (Mouse_status st)) 0) st) ;;
  SP_set (set_alive true) ;;
  def_shell_mode ;;
  name <- PDC_sysname ;;
  modify (set_ttytype (substring 0 127 ("pdcurses|PDCurses for " ++ name))) ;;
  gets stdscr
  end end end.

Definition Xinitscr (argc : Z) (argv : list string) : M (option WINDOW) :=
  a <- gets SP_alive ;;
  if a then ret None else
  r <- PDC_scr_open argc argv ;;
  if r =? ERR then
    fprintf_stderr ("initscr(): Unable to create SP" ++ newline) ;;
    ret None
  else
  Xinitscr_defaults ;;
  Xinitscr_screens.

Definition initscr : M (option WINDOW) := Xinitscr 0 [].

Definition endwin : M Z :=
  (* Allow temporary exit from curses using endwin() *)
  def_prog_mode ;;
  PDC_scr_close ;;
  SP_set (set_alive false) ;;
  ret OK.

Definition isendwin : M bool :=
  gets (fun st => match SP st with Some s => negb (alive s) | None => false end).

(** A [SCREEN *] value: [None] is [NULL]. *)
Definition SP_ptr (st : State) : option positive := option_map scr_addr (SP st).

Definition ptr_eqb (p q : option positive) : bool :=
  match p, q with
  | None, None => true
  | Some a, Some b => Pos.eqb a b
  | _, _ => false
  end.

Definition newterm : M (option positive) :=
  w <- Xinitscr 0 [] ;;
  match w with
  | Some _ => gets SP_ptr
  | None => ret None
  end.

Definition set_term (new : option positive) : M (option positive) :=
  (* We only support one screen *)
  cur <- gets SP_ptr ;;
  if ptr_eqb new cur then ret cur else ret None.

Definition delscreen (sp : option positive) : M unit :=
  cur <- gets SP_ptr ;;
  if negb (ptr_eqb sp cur) then ret tt else
  PDC_slk_free ;;               (* Free the soft label keys, if needed *)
  delwin Vstdscr ;;
  delwin Vcurscr ;;
  delwin Vlastscr ;;
  modify (set_stdscr None) ;;
  modify (set_curscr None) ;;
  modify (set_pdc_lastscr None) ;;
  SP_set (set_alive false) ;;
  PDC_scr_free ;;               (* Free SP and pdc_atrtab *)
  modify (set_SP None).

Definition resize_term (nlines ncols : Z) : M Z :=
  std <- gets stdscr ;;
  match std with
  | None => ret ERR
  | Some _ =>
  r <- PDC_resize_screen nlines ncols ;;
  if r =? ERR then ret ERR else
  rows <- PDC_get_rows ;;
  SP_set (set_lines rows) ;;
  l <- SP_get lines ;;
  n <- SP_get linesrippedoffcnt ;;
  k <- SP_get slklines ;;
  modify (set_LINES (l - n - k)) ;;
  c <- PDC_get_columns ;;
  modify (set_COLS c) ;;
  SP_set (set_cols c) ;;
  l <- SP_get lines ;;
  c <- SP_get cols ;;
  r1 <- wresize Vcurscr l c ;;
  if r1 =? ERR then ret ERR else
  L <- gets LINES ;;
  C <- gets COLS ;;
  r2 <- wresize Vstdscr L C ;;
  if r2 =? ERR then ret ERR else
  l <- SP_get lines ;;
  c <- SP_get cols ;;
  r3 <- wresize Vlastscr l c ;;
  if r3 =? ERR then ret ERR else
  werase Vlastscr ;;
  win_set Vcurscr (set__clear true) ;;
  wp <- SP_get slk_winptr ;;
  match wp with
  | Some _ =>
      k <- SP_get slklines ;;
      C <- gets COLS ;;
      r4 <- wresize Vslk k C ;;
      if r4 =? ERR then ret ERR else
      wmove Vslk 0 0 ;;
      wclrtobot Vslk ;;
      PDC_slk_initialize ;;
      slk_noutrefresh ;;
      touchwin Vstdscr ;;
      wnoutrefresh Vstdscr ;;
      ret OK
  | None =>
      touchwin Vstdscr ;;
      wnoutrefresh Vstdscr ;;
      ret OK
  end
  end.

Definition is_termresized : M bool := SP_get resized.

Definition curses_version : string := _curses_notice.

End Lifecycle.

Arguments to_chtype : simpl never.

(** ** Start-up, registrations and the environment's moves *)

(** The globals as the C file initialises them. *)
Definition startup (t : Terminal) : State :=
  {| SP := None; curscr := None; stdscr := None; pdc_lastscr := None;
     LINES := 0; COLS := 0; TABSIZE := 8; ttytype := "";
     Mouse_status := mkMOUSE 0 0 [0; 0; 0] 0;
     pdc_mouse_status := mkMOUSE 0 0 [0; 0; 0] 0;
     linesripped := []; linesrippedoff := 0;
     ripped_wins := []; allocs := 0%nat; stderr := [];
     c_sh_tty := None; c_pr_tty := None;
     terminal := t; term_open := false |}.

(** Modelled from the spec: a ripped-off-line registration
    [{side: top|bottom, initializer}] made before [create] ([ripoffline],
    absent from the sources): slot [linesrippedoff] of the five-entry
    table is written and the count grows; a sixth registration and a
    zero [line] are refused. *)
Definition ripoffline (ln : Z) (f : option WINDOW -> Z -> option WINDOW) : M Z :=
  fun st =>
    if (linesrippedoff st <? 5) && negb (ln =? 0) then
      Ret OK (set_linesrippedoff (linesrippedoff st + 1)
                (set_linesripped
                   (firstn (Z.to_nat (linesrippedoff st)) (linesripped st)
                    ++ [mkRIPPED ln f]
                    ++ skipn (S (Z.to_nat (linesrippedoff st))) (linesripped st))
                   st))
    else Ret ERR st.

(** Modelled from the spec: "re-opens the platform terminal using the
    previously saved mode; valid from SUSPENDED; sets [alive = true]"
    (the source resumes inside a later [refresh]/[doupdate], which is not
    part of the file). *)
Definition resume : M Z :=
  fun st =>
    match SP st with
    | Some s =>
        if alive s then Ret ERR st
        else Ret OK (set_term_open true (set_SP (Some (set_alive true s)) st))
    | None => Ret ERR st
    end.

(** Modelled from the spec: the user resizes the terminal out of band and
    the driver sets [resized]. *)
Definition user_resize (rows cols : Z) (st : State) : State :=
  set_terminal (mkTerminal rows cols)
    (set_SP (option_map (set_resized true) (SP st)) st).

(** ** A sample platform

    An 80-column terminal driver that fills a zeroed session record with
    the terminal's size, grants every resize request, never clears
    [resized], and an allocator that never fails; no soft label keys; a
    32-bit [chtype]. *)

Definition zero_screen (l c : Z) : SCREEN :=
  {| alive := false; autocr := false; cbreak := false; echo := false;
     raw_inp := false; raw_out := false; save_key_modifiers := false;
     return_key_modifiers := false; visibility := 0; resized := false;
     _preserve := false; _trap_mbe := 0; _map_mbe_to_key := 0;
     linesrippedoffcnt := 0; linesrippedoffontop := 0; delaytenths := 0;
     line_color := 0; orig_cursor := 0; lines := l; cols := c;
     slklines := 0; slk_winptr := None; scr_addr := 1%positive |}.

Definition sample_env : Env :=
  {| drv_scr_open := fun _ _ t => Some (zero_screen (t_rows t) (t_cols t));
     drv_get_cursor_mode := fun _ => 1;
     drv_resize_screen := fun nl nc t sp =>
       (OK,
        (if (nl =? 0) && (nc =? 0) then t else mkTerminal nl nc),
        match sp with Some s => resized s | None => false end);
     drv_sysname := "NuttX";
     alloc_ok := fun _ => true;
     slk_enabled := false;
     slk_line_count := 0;
     chtype_bits := 32 |}.

(** The same platform with a one-row soft-label-key strip. *)
Definition sample_env_slk : Env :=
  {| drv_scr_open := drv_scr_open sample_env;
     drv_get_cursor_mode := drv_get_cursor_mode sample_env;
     drv_resize_screen := drv_resize_screen sample_env;
     drv_sysname := drv_sysname sample_env;
     alloc_ok := alloc_ok sample_env;
     slk_enabled := true;
     slk_line_count := 1;
     chtype_bits := chtype_bits sample_env |}.

Definition state_of {A : Type} (o : Outcome A) : State :=
  match o with Ret _ st => st | Exit _ st => st | Fault st => st end.

Definition id_init : option WINDOW -> Z -> option WINDOW := fun w _ => w.

(** Two top registrations, then a bottom one, on a 24 x 80 terminal. *)
Definition registered_ttb : State :=
  state_of (ripoffline (-1) id_init
    (state_of (ripoffline 1 id_init
      (state_of (ripoffline 1 id_init (startup (mkTerminal 24 80))))))).

(** The session record of a state that has one. *)
Definition the_screen (st : State) : SCREEN :=
  match SP st with Some s => s | None => zero_screen 0 0 end.

(** A live 24 x 80 session on the sample platform, the same session after
    [endwin], and the live session after the user has resized the
    terminal to 30 x 100. *)
Definition alive_24x80 : State :=
  state_of (initscr sample_env (startup (mkTerminal 24 80))).


Definition resized_30x100 : State := user_resize 30 100 alive_24x80.

(** ** Reachable states

    The states a program can be in: it starts from [startup] and calls the
    functions of the file, registers ripped-off lines, resumes, and the
    user may resize the terminal at any time.  A call that exits or faults
    ends the run. *)
Inductive reachable (E : Env) : State -> Prop :=
| reach_startup t : reachable E (startup t)
| reach_ripoffline st ln f r st' :
    reachable E st -> ripoffline ln f st = Ret r st' -> reachable E st'
| reach_Xinitscr st argc argv w st' :
    reachable E st -> Xinitscr E argc argv st = Ret w st' -> reachable E st'
| reach_endwin st r st' :
    reachable E st -> endwin st = Ret r st' -> reachable E st'
| reach_resume st r st' :
    reachable E st -> resume st = Ret r st' -> reachable E st'
| reach_resize_term st nl nc r st' :
    reachable E st -> resize_term E nl nc st = Ret r st' -> reachable E st'
| reach_delscreen st sp st' :
    reachable E st -> delscreen sp st = Ret tt st' -> reachable E st'
| reach_user_resize st rows cols :
    reachable E st -> reachable E (user_resize rows cols st).

(** ** The properties as predicates on states *)

(** The rows of the terminal are all accounted for: the display window is
    [LINES] high, and [SP->lines == LINES + SP->linesrippedoffcnt +
    SP->slklines]. *)
Definition rows_accounted (st : State) : Prop :=
  exists s w,
    SP st = Some s /\ stdscr st = Some w /\ _maxy w = LINES st /\
    lines s = LINES st + linesrippedoffcnt s + slklines s.

(** The defaults that lines 166-180 of [Xinitscr] write. *)
Definition default_modes (s : SCREEN) : Prop :=
  autocr s = true /\ cbreak s = true /\ echo s = true /\
  raw_inp s = false /\ raw_out s = false /\ resized s = false.

(** [s'] has the mode flags of [s]. *)
Definition same_modes (s s' : SCREEN) : Prop :=
  autocr s' = autocr s /\ cbreak s' = cbreak s /\ echo s' = echo s /\
  raw_inp s' = raw_inp s /\ raw_out s' = raw_out s /\ resized s' = resized s.

(** Once soft label keys are enabled, a session's [slklines] is the
    configured row count. *)
Definition slk_settled (E : Env) (st : State) : Prop :=
  forall s, SP st = Some s -> slk_enabled E = true ->
            slklines s = slk_line_count E.

(** ** The loop over the registrations as a fold

    One round of lines 215-229 on a state with a session, and the rounds
    in sequence; [rip_loop_fold] and [rip_loop_total] below relate them to
    the loop. *)

Definition rip_once (E : Env) (r : RIPPEDOFFLINE) (st : State) : State :=
  match SP st with
  | None => st
  | Some s =>
      let bottom := line r <? 0 in
      let row := if bottom then LINES st - 1 else linesrippedoffontop s in
      let w := if alloc_ok E (allocs st)
               then Some (mkWINDOW 0 0 1 (COLS st) row 0 0 false true)
               else None in
      let s1 := if bottom then s
                else set_linesrippedoffontop (linesrippedoffontop s + 1) s in
      set_LINES (LINES st - 1)
        (set_SP (Some (set_linesrippedoffcnt (linesrippedoffcnt s + 1) s1))
           (set_ripped_wins (ripped_wins st ++ [init r w (COLS st)])
              (set_allocs (S (allocs st)) st)))
  end.

Fixpoint rip_result (E : Env) (regs : list RIPPEDOFFLINE) (st : State) : State :=
  match regs with
  | [] => st
  | r :: rest => rip_result E rest (rip_once E r st)
  end.

(** The registrations the loop visits: [n] of them from index [i] on. *)
Definition rip_visited (n i : nat) (st : State) : list RIPPEDOFFLINE :=
  firstn n (skipn i (linesripped st)).

(** How many of the registrations are top lines. *)
Definition rip_tops (regs : list RIPPEDOFFLINE) : Z :=
  Z.of_nat (List.length (filter (fun r => negb (line r <? 0)) regs)).

(** The row of the window that registration [r], the [j]-th one visited
    (counting from 0), receives when the loop starts with [LINES = L] and
    [SP->linesrippedoffontop = top]. *)
Definition rip_row (regs : list RIPPEDOFFLINE) (L top : Z) (j : nat)
    (r : RIPPEDOFFLINE) : Z :=
  if line r <? 0 then L - 1 - Z.of_nat j else top + rip_tops (firstn j regs).

(** What the callback of that registration leaves in [ripped_wins], when
    [a] windows were allocated before the loop. *)
Definition rip_win (E : Env) (regs : list RIPPEDOFFLINE) (cols L top : Z)
    (a j : nat) (r : RIPPEDOFFLINE) : option WINDOW :=
  init r
    (if alloc_ok E (a + j)
     then Some (mkWINDOW 0 0 1 cols (rip_row regs L top j r) 0 0 false true)
     else None)
    cols.

(** ** More sample runs and platforms *)

(** The session created from [registered_ttb] on the sample platform. *)
Definition created_ttb : State :=
  state_of (initscr sample_env registered_ttb).

(** The state in which [Xinitscr] ends the process on a 1 x 80
    terminal. *)
Definition exited_1x80 : State :=
  state_of (Xinitscr sample_env 0 [] (startup (mkTerminal 1 80))).

(** [resized_30x100] after [resize_term(0, 0)] has adopted the new
    size. *)
Definition adopted_30x100 : State :=
  state_of (resize_term sample_env 0 0 resized_30x100).

(** The sample platform with a terminal that cannot be resized: the
    driver refuses every request and changes nothing. *)
Definition sample_env_fixed : Env :=
  {| drv_scr_open := drv_scr_open sample_env;
     drv_get_cursor_mode := drv_get_cursor_mode sample_env;
     drv_resize_screen := fun _ _ t sp =>
       (ERR, t, match sp with Some s => resized s | None => false end);
     drv_sysname := drv_sysname sample_env;
     alloc_ok := alloc_ok sample_env;
     slk_enabled := false;
     slk_line_count := 0;
     chtype_bits := chtype_bits sample_env |}.

(** The sample platform with memory for three windows only: the fourth
    and every later allocation fails. *)
Definition sample_env_tight : Env :=
  {| drv_scr_open := drv_scr_open sample_env;
     drv_get_cursor_mode := drv_get_cursor_mode sample_env;
     drv_resize_screen := drv_resize_screen sample_env;
     drv_sysname := drv_sysname sample_env;
     alloc_ok := fun n => (n <? 3)%nat;
     slk_enabled := false;
     slk_line_count := 0;
     chtype_bits := chtype_bits sample_env |}.

(** The live 24 x 80 session after a resize to 30 x 100 that ran out of
    memory. *)
Definition starved_30x100 : State :=
  state_of (resize_term sample_env_tight 30 100 alive_24x80).



(** Whenever the display window exists, so do the session and the two
    screen buffers; at most five registrations are pending, all of them
    in the table. *)
Definition session_inv (st : State) : Prop :=
  (stdscr st <> None ->
   SP st <> None /\ curscr st <> None /\ pdc_lastscr st <> None) /\
  0 <= linesrippedoff st <= 5 /\
  (Z.to_nat (linesrippedoff st) <= List.length (linesripped st))%nat.


(** * Proofs *)

(** ** Running the code on a symbolic state

    A hypothesis [m st = Ret a st'] is taken apart one [bind] at a time;
    every primitive step is evaluated on the current state, which is kept
    as a record of fields. *)

Lemma bind_inv {A B : Type} (m : M A) (k : A -> M B) st b st2 :
  bind m k st = Ret b st2 ->
  exists a st1, m st = Ret a st1 /\ k a st1 = Ret b st2.
Proof.
  unfold bind. destruct (m st) as [a st1| |]; intros H; try discriminate H.
  exists a, st1. split; [reflexivity | exact H].
Qed.

Lemma Ret_inj {A : Type} (a b : A) st st' :
  Ret a st = Ret b st' -> a = b /\ st = st'.
Proof. intros H; injection H; auto. Qed.

Ltac flat H :=
  cbv [gets modify ret exit fault SP_get SP_set win_set on_win wresize
       werase wclrtobot touchwin untouchwin wmove wnoutrefresh slk_noutrefresh
       wattrset delwin call_init fprintf_stderr newwin
       PDC_scr_open PDC_scr_close PDC_scr_free PDC_get_rows PDC_get_columns
       PDC_get_cursor_mode PDC_resize_screen PDC_sysname PDC_init_atrtab
       PDC_slk_free def_shell_mode def_prog_mode
       win_get win_put option_map
       set_SP set_curscr set_stdscr set_pdc_lastscr set_LINES set_COLS set_ttytype
       set_Mouse_status set_pdc_mouse_status set_linesripped set_linesrippedoff
       set_ripped_wins set_allocs set_stderr set_c_sh_tty set_c_pr_tty set_terminal
       set_term_open
       set_alive set_resized set_linesrippedoffcnt set_linesrippedoffontop
       set_lines set_cols set_slklines set_slk_winptr
       set__cury set__curx set__maxy set__maxx set__attrs set__clear set__touched
       SP curscr stdscr pdc_lastscr LINES COLS TABSIZE ttytype Mouse_status
       pdc_mouse_status linesripped linesrippedoff ripped_wins allocs stderr
       c_sh_tty c_pr_tty terminal term_open
       alive autocr cbreak echo raw_inp raw_out save_key_modifiers
       return_key_modifiers visibility resized _preserve _trap_mbe _map_mbe_to_key
       linesrippedoffcnt linesrippedoffontop delaytenths line_color orig_cursor
       lines cols slklines slk_winptr scr_addr
       _cury _curx _maxy _maxx _begy _begx _attrs _clear _touched] in H.

Ltac flat_goal :=
  cbv [gets modify ret exit fault SP_get SP_set win_set on_win wresize
       werase wclrtobot touchwin untouchwin wmove wnoutrefresh slk_noutrefresh
       wattrset delwin call_init fprintf_stderr newwin
       PDC_scr_open PDC_scr_close PDC_scr_free PDC_get_rows PDC_get_columns
       PDC_get_cursor_mode PDC_resize_screen PDC_sysname PDC_init_atrtab
       PDC_slk_free def_shell_mode def_prog_mode
       win_get win_put option_map
       set_SP set_curscr set_stdscr set_pdc_lastscr set_LINES set_COLS set_ttytype
       set_Mouse_status set_pdc_mouse_status set_linesripped set_linesrippedoff
       set_ripped_wins set_allocs set_stderr set_c_sh_tty set_c_pr_tty set_terminal
       set_term_open
       set_alive set_resized set_linesrippedoffcnt set_linesrippedoffontop
       set_lines set_cols set_slklines set_slk_winptr
       set__cury set__curx set__maxy set__maxx set__attrs set__clear set__touched
       SP curscr stdscr pdc_lastscr LINES COLS TABSIZE ttytype Mouse_status
       pdc_mouse_status linesripped linesrippedoff ripped_wins allocs stderr
       c_sh_tty c_pr_tty terminal term_open
       alive autocr cbreak echo raw_inp raw_out save_key_modifiers
       return_key_modifiers visibility resized _preserve _trap_mbe _map_mbe_to_key
       linesrippedoffcnt linesrippedoffontop delaytenths line_color orig_cursor
       lines cols slklines slk_winptr scr_addr
       _cury _curx _maxy _maxx _begy _begx _attrs _clear _touched].

Ltac use_known H x :=
  match goal with
  | e : x = _ |- _ => rewrite e in H
  end.

Ltac split_match H :=
  match type of H with
  | context [match ?x with _ => _ end] =>
      lazymatch x with
      | context [match _ with _ => _ end] => fail
      | _ => first [ use_known H x; cbn in H
                   | let e := fresh "e" in
                     destruct x eqn:e; cbn in H; try discriminate H ]
      end
  end.

Ltac prim H :=
  flat H; cbn in H; try discriminate H; repeat split_match H;
  lazymatch type of H with
  | Ret _ ?s = Ret ?a ?s1 =>
      let Ha := fresh "Ha" in
      let Hs := fresh "Hs" in
      apply Ret_inj in H; destruct H as [Ha Hs];
      first [subst s1 | idtac];
      first [subst a | cbv [OK ERR] in Ha; discriminate Ha | clear Ha | idtac]
  | _ => idtac
  end.

Ltac simp_scrut H x :=
  let x' := eval cbn in x in
  (change x with x' in H);
  try use_known H x'.

Ltac run H :=
  lazymatch type of H with
  | bind _ _ _ = Ret _ _ =>
      let a := fresh "a" in
      let st1 := fresh "st" in
      let H1 := fresh "H" in
      apply bind_inv in H; destruct H as (a & st1 & H1 & H);
      run H1; cbv beta in H; run H
  | PDC_slk_initialize _ _ = Ret _ _ => unfold PDC_slk_initialize in H; run H
  | (if ?c then _ else _) _ = Ret _ _ =>
      simp_scrut H c;
      lazymatch type of H with
      | (if true then _ else _) _ = _ => cbv beta iota in H; run H
      | (if false then _ else _) _ = _ => cbv beta iota in H; run H
      | (if ?c' then _ else _) _ = _ =>
          let e := fresh "e" in
          destruct c' eqn:e; cbv beta iota in H; run H
      | _ => run H
      end
  | (match ?x with _ => _ end) _ = Ret _ _ =>
      simp_scrut H x;
      lazymatch type of H with
      | (match ?x' with _ => _ end) _ = _ =>
          first [ is_var x'; destruct x'
                | let e := fresh "e" in destruct x' eqn:e
                | idtac ];
          cbv beta iota in H; run H
      | _ => run H
      end
  | rip_loop _ _ _ _ = Ret _ _ => idtac
  | _ => prim H
  end.

Section LifecycleFacts.

Variable E : Env.

(** The loop over the registrations only moves the two counters of the
    session, lowers [LINES] by one per round and allocates windows. *)
Lemma rip_loop_Ret n : forall i st st' s,
  SP st = Some s -> rip_loop E n i st = Ret tt st' ->
  exists top,
    SP st' = Some (set_linesrippedoffcnt (linesrippedoffcnt s + Z.of_nat n)
                     (set_linesrippedoffontop top s)) /\
    LINES st' = LINES st - Z.of_nat n /\ COLS st' = COLS st /\
    curscr st' = curscr st /\ stdscr st' = stdscr st /\
    pdc_lastscr st' = pdc_lastscr st.
Proof.
  induction n as [|n IH]; intros i st st' s Hs H.
  - cbn in H. injection H as <-. exists (linesrippedoffontop s).
    rewrite Hs, Z.add_0_r. repeat split; auto; lia.
  - cbn [rip_loop] in H.
    apply bind_inv in H. destruct H as (tbl & st1 & H1 & H). prim H1.
    cbv beta in H. flat Hs.
    run H.
    all: match goal with
         | L : rip_loop _ _ _ ?stm = Ret ?u _ |- _ =>
             destruct (IH _ stm st' _ eq_refl L)
               as (top & H1 & H2 & H3 & H4 & H5 & H6)
         end.
    all: rewrite Nat2Z.inj_succ; cbn in H1, H2, H3, H4, H5, H6.
    all: exists top; rewrite H1.
    all: clear H IH.
    all: repeat split; try assumption.
    all: cbv [set_linesrippedoffcnt set_linesrippedoffontop LINES linesrippedoffcnt] in *;
         cbn; first [lia | do 2 f_equal; lia].
Qed.

(** What a returning run of lines 183-270 leaves behind. *)
Lemma Xinitscr_screens_Ret st s w st' :
  SP st = Some s -> Xinitscr_screens E st = Ret w st' ->
  exists s' win,
    w = Some win /\ stdscr st' = Some win /\ SP st' = Some s' /\
    alive s' = true /\ same_modes s s' /\
    lines s' = lines s /\ cols s' = cols s /\
    slklines s' = (if slk_enabled E then slk_line_count E else slklines s) /\
    linesrippedoffcnt s' =
      linesrippedoffcnt s + Z.of_nat (Z.to_nat (linesrippedoff st)) /\
    LINES st' = lines s - slklines s' - Z.of_nat (Z.to_nat (linesrippedoff st)) /\
    COLS st' = cols s /\
    _maxy win = LINES st' /\ _maxx win = COLS st' /\
    _begy win = linesrippedoffontop s' /\
    2 <= lines s /\ 2 <= cols s.
Proof.
  intros Hs H. unfold Xinitscr_screens in H. flat Hs.
  run H.
  all: match goal with
       | L : rip_loop _ _ _ ?stm = Ret ?u ?st0 |- _ =>
           destruct u;
           destruct (rip_loop_Ret _ _ stm st0 _ eq_refl L)
             as (top & L1 & L2 & L3 & L4 & L5 & L6);
           clear L
       end.
  all: flat L1; flat L2; flat L3; flat L4; flat L5; flat L6.
  all: match type of L1 with
       | ?lhs = _ =>
           match goal with
           | e : lhs = Some ?x |- _ =>
               is_var x; rewrite L1 in e; injection e as e; subst x
           end
       end.
  all: apply orb_false_iff in e; destruct e as [e e']; apply Z.ltb_ge in e, e'.
  all: do 2 eexists; cbn -[Z.of_nat Z.to_nat Z.sub Z.add]; rewrite ?L2, ?L3;
       unfold same_modes; repeat split; first [reflexivity | assumption].
Qed.

(** Lines 166-181 rewrite the session record only. *)
Lemma Xinitscr_defaults_Ret st s u st1 :
  SP st = Some s -> Xinitscr_defaults E st = Ret u st1 ->
  exists s1,
    st1 = set_SP (Some s1) st /\ default_modes s1 /\
    linesrippedoffcnt s1 = 0 /\ linesrippedoffontop s1 = 0 /\
    alive s1 = alive s /\ lines s1 = lines s /\ cols s1 = cols s /\
    slklines s1 = slklines s.
Proof.
  intros Hs H. unfold Xinitscr_defaults in H. flat Hs. run H.
  eexists. split; [reflexivity|]. unfold default_modes. cbn. repeat split.
Qed.

(** The three ways [Xinitscr] returns. *)
Lemma Xinitscr_Ret argc argv st w st' :
  Xinitscr E argc argv st = Ret w st' ->
  (SP_alive st = true /\ w = None /\ st' = st) \/
  (SP_alive st = false /\ drv_scr_open E argc argv (terminal st) = None /\
   w = None /\ SP st' = SP st /\ stdscr st' = stdscr st /\ LINES st' = LINES st) \/
  (SP_alive st = false /\
   exists s0 st1 s1 s' win,
     drv_scr_open E argc argv (terminal st) = Some s0 /\
     (r <- PDC_scr_open E argc argv ;; Xinitscr_defaults E) st = Ret tt st1 /\
     Xinitscr_screens E st1 = Ret w st' /\
     st1 = set_SP (Some s1) (set_term_open true st) /\
     default_modes s1 /\ linesrippedoffcnt s1 = 0 /\ linesrippedoffontop s1 = 0 /\
     w = Some win /\ stdscr st' = Some win /\ SP st' = Some s' /\
     alive s' = true /\ default_modes s' /\
     lines s' = lines s0 /\ cols s' = cols s0 /\
     slklines s' = (if slk_enabled E then slk_line_count E else slklines s0) /\
     linesrippedoffcnt s' = Z.of_nat (Z.to_nat (linesrippedoff st)) /\
     LINES st' = lines s' - slklines s' - linesrippedoffcnt s' /\
     COLS st' = cols s' /\ _maxy win = LINES st' /\ _maxx win = COLS st' /\
     _begy win = linesrippedoffontop s').
Proof.
  intros H. unfold Xinitscr in H.
  apply bind_inv in H. destruct H as (a & st0 & H0 & H). prim H0.
  cbv beta in H.
  destruct (SP_alive st) eqn:Ha; cbv beta iota in H.
  { left. prim H. auto. }
  right.
  apply bind_inv in H. destruct H as (r & st0 & H0 & H).
  unfold PDC_scr_open in H0.
  destruct (drv_scr_open E argc argv (terminal st)) as [s0|] eqn:Ho.
  2:{ left. prim H0. change (ERR =? ERR) with true in H. cbv beta iota in H.
      run H. cbn. repeat split; try assumption; try reflexivity. }
  right. prim H0. change (OK =? ERR) with false in H. cbv beta iota in H.
  apply bind_inv in H. destruct H as (u & st1 & H1 & H).
  match type of H1 with
  | Xinitscr_defaults _ ?stx = _ =>
      destruct (Xinitscr_defaults_Ret stx s0 _ _ eq_refl H1)
        as (s1 & -> & Hm & Hc & Ht & Hal & Hl & Hcs & Hsl)
  end.
  pose proof H as Hscr.
  match type of H with
  | Xinitscr_screens _ ?stx = _ =>
      apply (Xinitscr_screens_Ret stx s1 _ _ eq_refl) in H
  end.
  destruct H
    as (s' & win & -> & Hstd & Hsp & Hal' & Hsm & Hl' & Hc' & Hsl' & Hcnt & HL & HC
        & Hmy & Hmx & Hby & _ & _).
  split; [reflexivity|].
  exists s0, (set_SP (Some s1) (set_term_open true st)), s1, s', win.
  cbn in Hcnt, HL, HC. destruct u.
  destruct Hm as (m1 & m2 & m3 & m4 & m5 & m6).
  destruct Hsm as (n1 & n2 & n3 & n4 & n5 & n6).
  rewrite Hc, Z.add_0_l in Hcnt.
  assert (Hd : default_modes s') by (unfold default_modes; repeat split; congruence).
  assert (Hrun : (r <- PDC_scr_open E argc argv ;; Xinitscr_defaults E) st
                 = Ret tt (set_SP (Some s1) (set_term_open true st))).
  { unfold bind, PDC_scr_open. rewrite Ho. exact H1. }
  unfold default_modes.
  repeat split; try assumption; try reflexivity; try congruence.
  rewrite Hsl', Hsl. reflexivity.
Qed.

(** What a successful [resize_term] leaves behind. *)
Lemma resize_term_OK nl nc st st' :
  resize_term E nl nc st = Ret OK st' ->
  exists s s' w,
    SP st = Some s /\ SP st' = Some s' /\ stdscr st' = Some w /\
    _maxy w = LINES st' /\ _maxx w = COLS st' /\
    LINES st' = lines s' - linesrippedoffcnt s' - slklines s /\
    (slklines s' = slklines s \/
     slk_enabled E = true /\ slklines s' = slk_line_count E) /\
    resized s' = snd (drv_resize_screen E nl nc (terminal st) (SP st)).
Proof.
  intros H. unfold resize_term in H. run H.
  all: match goal with e : SP _ = Some ?s |- _ => exists s end.
  all: do 2 eexists; flat_goal; cbn.
  all: rewrite ?e2, ?e0.
  all: repeat split; try reflexivity; auto.
Qed.

(** However [resize_term] returns, [slklines] is what it was or the
    configured row count. *)
Lemma resize_term_slk nl nc st r st' s' :
  resize_term E nl nc st = Ret r st' -> SP st' = Some s' ->
  exists s, SP st = Some s /\
    (slklines s' = slklines s \/
     slk_enabled E = true /\ slklines s' = slk_line_count E).
Proof.
  intros H Hs'. unfold resize_term in H. run H.
  all: flat Hs'; cbn in Hs'.
  all: try match type of Hs' with
           | context [match ?x with _ => _ end] =>
               destruct x eqn:?; cbn in Hs'; try discriminate Hs'
           end.
  all: try discriminate Hs'.
  all: match goal with e : SP _ = Some ?s |- _ => exists s end.
  all: split; [first [assumption | reflexivity] |].
  all: repeat match goal with e : SP _ = Some _ |- _ => rewrite e in Hs' end.
  all: try (injection Hs' as <-); flat_goal; cbn; auto.
Qed.

End LifecycleFacts.

(** Soft-label-key settlement is an invariant of every run. *)
Lemma reachable_slk_settled E st : reachable E st -> slk_settled E st.
Proof.
  induction 1 as [t | st ln f r st' _ IH H | st argc argv w st' _ IH H
                 | st r st' _ IH H | st r st' _ IH H | st nl nc r st' _ IH H
                 | st sp st' _ IH H | st rows cols _ IH];
    intros s' Hs' Hen.
  - discriminate Hs'.
  - unfold ripoffline in H.
    destruct ((linesrippedoff st <? 5) && negb (ln =? 0));
      injection H as _ <-; apply IH; auto.
  - apply Xinitscr_Ret in H.
    destruct H as [(_ & _ & ->) | [(_ & _ & _ & Hsp & _) | (_ & H)]].
    + apply IH; auto.
    + apply IH; auto. rewrite <- Hsp. exact Hs'.
    + destruct H as (s0 & st1 & s1 & s2 & win & H).
      destruct H as (_ & _ & _ & _ & _ & _ & _ & _ & _ & Hsp & _ & _ & _ & _ & Hsl & _).
      rewrite Hsp in Hs'. injection Hs' as <-. rewrite Hsl, Hen. reflexivity.
  - unfold endwin in H. run H. flat Hs'. cbn in Hs'. injection Hs' as <-.
    cbn. apply IH; auto.
  - unfold resume in H. destruct (SP st) as [s|] eqn:Hs; [|injection H as _ <-; congruence].
    destruct (alive s); injection H as _ <-.
    + apply IH; auto.
    + cbn in Hs'. injection Hs' as <-. cbn. apply IH; auto.
  - destruct (resize_term_slk E _ _ _ _ _ _ H Hs') as (s & Hs & [Heq | [_ Heq]]).
    + rewrite Heq. apply IH; auto.
    + exact Heq.
  - unfold delscreen in H. run H.
    all: flat Hs'; cbn in Hs'; first [discriminate Hs' | apply IH; auto].
  - unfold user_resize in Hs'. cbn in Hs'.
    destruct (SP st) as [s|] eqn:Hs; [|discriminate Hs'].
    cbn in Hs'. injection Hs' as <-. cbn. apply IH; auto.
Qed.

(** ** The session invariants and the behaviour at the edges *)

(** C1: after every successful create ([Xinitscr] returning a window) and
    every successful resize ([resize_term] returning [OK]) of a run, the
    display window [stdscr] is [LINES] rows high and the full terminal
    height is accounted for:
    [SP->lines == LINES + SP->linesrippedoffcnt + SP->slklines]. *)
Theorem rows_accounted_after_create_and_resize (E : Env) :
  (forall argc argv st w st',
     Xinitscr E argc argv st = Ret (Some w) st' -> rows_accounted st') /\
  (forall nl nc st st',
     reachable E st -> resize_term E nl nc st = Ret OK st' ->
     rows_accounted st').
Proof.
  split.
  - intros argc argv st w st' H.
    apply Xinitscr_Ret in H.
    destruct H as [(_ & Hw & _) | [(_ & _ & Hw & _) | (_ & H)]];
      try discriminate Hw.
    destruct H as (s0 & st1 & s1 & s' & win & H).
    destruct H as (_ & _ & _ & _ & _ & _ & _ & _ & Hstd & Hsp & _ & _ & _ & _ & _
                   & _ & HL & _ & Hmy & _).
    exists s', win. repeat split; try assumption. lia.
  - intros nl nc st st' Hreach H.
    apply resize_term_OK in H.
    destruct H as (s & s' & w & Hs & Hs' & Hstd & Hmy & _ & HL & Hslk & _).
    exists s', w. repeat split; try assumption.
    destruct Hslk as [Heq | [Hen Heq]].
    + rewrite Heq. lia.
    + rewrite Heq, <- (reachable_slk_settled E st Hreach s Hs Hen). lia.
Qed.

Lemma rows_accounted_witness :
  rows_accounted alive_24x80 /\
  rows_accounted (state_of (resize_term sample_env 0 0 resized_30x100)).
Proof.
  split.
  - apply (proj1 (rows_accounted_after_create_and_resize sample_env)
             0 [] (startup (mkTerminal 24 80))
             (mkWINDOW 0 0 24 80 0 0 0 false true)).
    reflexivity.
  - apply (proj2 (rows_accounted_after_create_and_resize sample_env)
             0 0 resized_30x100).
    + apply reach_user_resize.
      apply (reach_Xinitscr sample_env (startup (mkTerminal 24 80)) 0 []
               (Some (mkWINDOW 0 0 24 80 0 0 0 false true))).
      * apply reach_startup.
      * reflexivity.
    + reflexivity.
Defined.

(** C2: while a session exists and is alive, [Xinitscr] (and so
    [initscr]) returns [NULL] and leaves the whole state as it was. *)
Theorem Xinitscr_alive_refused (E : Env) argc argv st s :
  SP st = Some s -> alive s = true ->
  Xinitscr E argc argv st = Ret None st /\ initscr E st = Ret None st.
Proof.
  intros Hs Ha.
  assert (H : forall c v, Xinitscr E c v st = Ret None st).
  { intros c v. unfold Xinitscr, bind, gets, SP_alive.
    rewrite Hs, Ha. reflexivity. }
  split; [apply H | apply (H 0 [])].
Qed.

Lemma Xinitscr_alive_refused_witness :
  Xinitscr sample_env 0 [] alive_24x80 = Ret None alive_24x80 /\
  initscr sample_env alive_24x80 = Ret None alive_24x80.
Proof.
  apply (Xinitscr_alive_refused sample_env 0 [] alive_24x80
           (the_screen alive_24x80)); reflexivity.
Defined.

(** C3, as the code has it: when the driver reports a terminal with a
    dimension below 2, [Xinitscr] does not return to its caller: it
    writes the message "initscr(): LINES=.. COLS=..: too small." to
    [stderr] and ends the process with exit status 4.  No window has
    been created, and the session record that [PDC_scr_open] allocated
    is left in place, with the [alive] flag the driver gave it. *)
Theorem Xinitscr_too_small_exits (E : Env) argc argv st s0 :
  SP_alive st = false ->
  drv_scr_open E argc argv (terminal st) = Some s0 ->
  lines s0 < 2 \/ cols s0 < 2 ->
  exists st' s',
    Xinitscr E argc argv st = Exit 4 st' /\
    stderr st'
    = (stderr st
       ++ [("initscr(): LINES=" ++ show_int (lines s0)
            ++ " COLS=" ++ show_int (cols s0)
            ++ ": too small." ++ newline)%string])%list /\
    curscr st' = curscr st /\ stdscr st' = stdscr st /\
    pdc_lastscr st' = pdc_lastscr st /\ allocs st' = allocs st /\
    ripped_wins st' = ripped_wins st /\
    SP st' = Some s' /\ alive s' = alive s0.
Proof.
  intros Ha Ho Hsmall.
  assert (Hc : (lines s0 <? 2) || (cols s0 <? 2) = true).
  { apply orb_true_iff. destruct Hsmall; [left | right]; apply Z.ltb_lt; assumption. }
  unfold Xinitscr, Xinitscr_defaults, Xinitscr_screens.
  flat_goal. cbv [bind PDC_scr_open]. flat_goal.
  rewrite Ha. cbn. flat Ho. rewrite Ho. cbn. flat Hc. rewrite Hc. cbn.
  do 2 eexists. repeat split.
Qed.

Lemma Xinitscr_too_small_exits_witness :
  exists st' s',
    Xinitscr sample_env 0 [] (startup (mkTerminal 1 80)) = Exit 4 st' /\
    stderr st'
    = [("initscr(): LINES=1 COLS=80: too small." ++ newline)%string] /\
    curscr st' = None /\ stdscr st' = None /\ pdc_lastscr st' = None /\
    allocs st' = 0%nat /\ ripped_wins st' = [] /\
    SP st' = Some s' /\ alive s' = false.
Proof.
  apply (Xinitscr_too_small_exits sample_env 0 [] (startup (mkTerminal 1 80))
           (zero_screen 1 80)).
  - reflexivity.
  - reflexivity.
  - left. reflexivity.
Defined.

(** C3, as the spec words it, fails: on a 1 x 80 terminal [Xinitscr]
    returns nothing to its caller, and the session record is not gone. *)
Lemma Xinitscr_1x80_does_not_return :
  (forall w st',
     Xinitscr sample_env 0 [] (startup (mkTerminal 1 80)) <> Ret w st') /\
  exists st',
    Xinitscr sample_env 0 [] (startup (mkTerminal 1 80)) = Exit 4 st' /\
    SP st' <> None.
Proof.
  split.
  - intros w st' H. vm_compute in H. discriminate H.
  - eexists. split; [vm_compute; reflexivity | cbn; discriminate].
Qed.

(** C4, evaluated: with two top registrations followed by a bottom one on
    a 24 x 80 terminal without soft label keys, the callbacks receive
    windows at rows 0, 1 and 21 (not 23), each one row by 80 columns, and
    [stdscr] covers rows 2 to 22, so the bottom line lies inside
    [stdscr] and row 23 belongs to no window. *)
Theorem ripped_bottom_after_two_tops :
  exists w st',
    Xinitscr sample_env 0 [] registered_ttb = Ret (Some w) st' /\
    map (option_map (fun r => (_begy r, _maxy r, _maxx r))) (ripped_wins st')
      = [Some (0, 1, 80); Some (1, 1, 80); Some (21, 1, 80)] /\
    stdscr st' = Some w /\
    (_begy w, _maxy w, _maxx w) = (2, 21, 80) /\
    _begy w <= 21 < _begy w + _maxy w.
Proof.
  do 2 eexists. split; [vm_compute; reflexivity |].
  cbn. repeat split; try reflexivity; lia.
Qed.







(** The driver's part is needed: with a driver that grants the resize
    and leaves the flag alone, [resized] is still set after a successful
    [resize_term]. *)
Lemma resize_keeps_resized_pending :
  SP_alive resized_30x100 = true /\
  is_termresized resized_30x100 = Ret true resized_30x100 /\
  exists st',
    resize_term sample_env 0 0 resized_30x100 = Ret OK st' /\
    is_termresized st' = Ret true st'.
Proof.
  split; [reflexivity |]. split; [reflexivity |].
  eexists. split; vm_compute; reflexivity.
Qed.

(** C7, evaluated: whenever [SP] is [NULL], [delscreen(NULL)] passes the
    guard [sp != SP], clears the three window pointers and then
    dereferences the null [SP] at [SP->alive = false]. *)
Theorem delscreen_NULL_without_session_faults st :
  SP st = None ->
  delscreen None st
  = Fault (set_pdc_lastscr None (set_curscr None (set_stdscr None st))).
Proof.
  intros H. unfold delscreen.
  cbv [bind SP_ptr ptr_eqb negb]. flat_goal. flat H.
  repeat (rewrite H; cbn). reflexivity.
Qed.

Lemma delscreen_NULL_without_session_faults_witness :
  delscreen None (startup (mkTerminal 24 80))
  = Fault (startup (mkTerminal 24 80)).
Proof.
  apply (delscreen_NULL_without_session_faults (startup (mkTerminal 24 80))).
  reflexivity.
Defined.

(** A stale non-null pointer, on the other hand, is ignored. *)
Lemma delscreen_stale_pointer_ignored (p : positive) st :
  SP st = None -> delscreen (Some p) st = Ret tt st.
Proof.
  intros H. cbv [delscreen bind gets SP_ptr SP]. cbv [SP] in H.
  rewrite H. reflexivity.
Qed.

(** C8: [endwin] only clears [alive] (and saves the program mode and
    releases the terminal): the session record, the three screen windows
    and the display dimensions stay; after [resume] the session record is
    again exactly what it was before [endwin]. *)
Theorem endwin_resume_restores st s :
  SP st = Some s -> alive s = true ->
  exists st1 st2,
    endwin st = Ret OK st1 /\
    SP st1 = Some (set_alive false s) /\
    curscr st1 = curscr st /\ stdscr st1 = stdscr st /\
    pdc_lastscr st1 = pdc_lastscr st /\
    LINES st1 = LINES st /\ COLS st1 = COLS st /\
    ripped_wins st1 = ripped_wins st /\
    resume st1 = Ret OK st2 /\
    SP st2 = Some s /\
    curscr st2 = curscr st /\ stdscr st2 = stdscr st /\
    pdc_lastscr st2 = pdc_lastscr st /\
    LINES st2 = LINES st /\ COLS st2 = COLS st /\
    ripped_wins st2 = ripped_wins st.
Proof.
  intros Hs Ha.
  unfold endwin, resume. cbv [bind def_prog_mode PDC_scr_close SP_set modify ret].
  flat_goal. flat Hs. rewrite Hs. cbn.
  do 2 eexists. split; [reflexivity |].
  cbn. repeat split. flat Ha. rewrite <- Ha. reflexivity.
Qed.

Lemma endwin_resume_restores_witness :
  exists st1 st2,
    endwin alive_24x80 = Ret OK st1 /\
    SP st1 = Some (set_alive false (the_screen alive_24x80)) /\
    curscr st1 = curscr alive_24x80 /\ stdscr st1 = stdscr alive_24x80 /\
    pdc_lastscr st1 = pdc_lastscr alive_24x80 /\
    LINES st1 = LINES alive_24x80 /\ COLS st1 = COLS alive_24x80 /\
    ripped_wins st1 = ripped_wins alive_24x80 /\
    resume st1 = Ret OK st2 /\
    SP st2 = Some (the_screen alive_24x80) /\
    curscr st2 = curscr alive_24x80 /\ stdscr st2 = stdscr alive_24x80 /\
    pdc_lastscr st2 = pdc_lastscr alive_24x80 /\
    LINES st2 = LINES alive_24x80 /\ COLS st2 = COLS alive_24x80 /\
    ripped_wins st2 = ripped_wins alive_24x80.
Proof.
  apply (endwin_resume_restores alive_24x80 (the_screen alive_24x80));
    reflexivity.
Defined.

(** C9: [isendwin] always returns and changes nothing: [false] without a
    session, the negation of [alive] with one. *)
Theorem isendwin_total st :
  exists b,
    isendwin st = Ret b st /\
    b = match SP st with
        | None => false
        | Some s => negb (alive s)
        end.
Proof. eexists. split; reflexivity. Qed.

(** C10: every successful [Xinitscr] first installs the fixed defaults
    (auto-CR, cbreak and echo on; raw input, raw output and [resized]
    off; both ripped-off-line counters zero) in the session record the
    driver opened, before any window is allocated; the mode flags are
    still these defaults when it returns. *)
Theorem Xinitscr_installs_defaults (E : Env) argc argv st w st' :
  Xinitscr E argc argv st = Ret (Some w) st' ->
  exists st1 s1 s',
    (r <- PDC_scr_open E argc argv ;; Xinitscr_defaults E) st = Ret tt st1 /\
    Xinitscr_screens E st1 = Ret (Some w) st' /\
    SP st1 = Some s1 /\ default_modes s1 /\
    linesrippedoffcnt s1 = 0 /\ linesrippedoffontop s1 = 0 /\
    curscr st1 = curscr st /\ stdscr st1 = stdscr st /\
    pdc_lastscr st1 = pdc_lastscr st /\
    allocs st1 = allocs st /\ ripped_wins st1 = ripped_wins st /\
    SP st' = Some s' /\ default_modes s'.
Proof.
  intros H. apply Xinitscr_Ret in H.
  destruct H as [(_ & Hw & _) | [(_ & _ & Hw & _) | (_ & H)]];
    try discriminate Hw.
  destruct H as (s0 & st1 & s1 & s' & win & H).
  destruct H as (_ & Hrun & Hscr & -> & Hm & Hc & Ht & _ & _ & Hsp & _ & Hm' & _).
  exists (set_SP (Some s1) (set_term_open true st)), s1, s'.
  repeat split; try assumption; try reflexivity;
    try apply Hm; try apply Hm'.
Qed.

Lemma Xinitscr_installs_defaults_witness :
  exists st1 s1 s',
    (r <- PDC_scr_open sample_env 0 [] ;; Xinitscr_defaults sample_env)
      registered_ttb = Ret tt st1 /\
    Xinitscr_screens sample_env st1
      = Ret (Some (mkWINDOW 0 0 21 80 2 0 0 false true))
            (state_of (Xinitscr sample_env 0 [] registered_ttb)) /\
    SP st1 = Some s1 /\ default_modes s1 /\
    linesrippedoffcnt s1 = 0 /\ linesrippedoffontop s1 = 0 /\
    curscr st1 = curscr registered_ttb /\ stdscr st1 = stdscr registered_ttb /\
    pdc_lastscr st1 = pdc_lastscr registered_ttb /\
    allocs st1 = allocs registered_ttb /\
    ripped_wins st1 = ripped_wins registered_ttb /\
    SP (state_of (Xinitscr sample_env 0 [] registered_ttb)) = Some s' /\
    default_modes s'.
Proof.
  apply (Xinitscr_installs_defaults sample_env 0 [] registered_ttb).
  reflexivity.
Defined.

(** * Further properties of the file

    The properties above follow single paths through the code.  The rest
    of the development covers the remaining behaviour of [Xinitscr],
    [resize_term], [endwin], [delscreen], [newterm] and [set_term]: every
    way a call can end, the layout a successful [Xinitscr] leaves behind,
    and what holds in every state a program can reach. *)

(** ** Every outcome of a run

    The same walk through the code for a hypothesis [m st = o] whose
    outcome [o] may be a return, an exit or a fault. *)

Lemma bind_inv_any {A B : Type} (m : M A) (k : A -> M B) st (o : Outcome B) :
  bind m k st = o ->
  (exists a st1, m st = Ret a st1 /\ k a st1 = o) \/
  (exists c st1, m st = Exit c st1 /\ o = Exit c st1) \/
  (exists st1, m st = Fault st1 /\ o = Fault st1).
Proof.
  unfold bind. destruct (m st) as [a st1 | c st1 | st1]; intros H.
  - left. exists a, st1. split; [reflexivity | exact H].
  - right. left. exists c, st1. split; [reflexivity | symmetry; exact H].
  - right. right. exists st1. split; [reflexivity | symmetry; exact H].
Qed.

Ltac close_outcome H :=
  lazymatch type of H with
  | Ret _ ?s = Ret ?a ?s1 =>
      let Ha := fresh "Ha" in
      let Hs := fresh "Hs" in
      apply Ret_inj in H; destruct H as [Ha Hs];
      first [subst s1 | idtac];
      first [subst a | cbv [OK ERR] in Ha; discriminate Ha | clear Ha | idtac]
  | Exit ?c ?s = Exit ?c1 ?s1 =>
      let Ha := fresh "Ha" in
      let Hs := fresh "Hs" in
      injection H as Ha Hs;
      first [subst s1 | idtac];
      first [subst c1 | discriminate Ha | idtac]
  | Fault ?s = Fault ?s1 =>
      let Hs := fresh "Hs" in
      injection H as Hs; first [subst s1 | idtac]
  | _ => idtac
  end.

Ltac primo H :=
  flat H; cbn in H; try discriminate H; repeat split_match H;
  close_outcome H.

Ltac runo H :=
  lazymatch type of H with
  | bind _ _ _ = _ =>
      let a := fresh "a" in
      let c := fresh "c" in
      let st1 := fresh "st" in
      let H1 := fresh "H" in
      apply bind_inv_any in H;
      destruct H as [(a & st1 & H1 & H) | [(c & st1 & H1 & H) | (st1 & H1 & H)]];
      [ runo H1; cbv beta in H; runo H
      | first [discriminate H | close_outcome_eq H; runo H1]
      | first [discriminate H | close_outcome_eq H; runo H1] ]
  | PDC_slk_initialize _ _ = _ => unfold PDC_slk_initialize in H; runo H
  | (if ?c then _ else _) _ = _ =>
      simp_scrut H c;
      lazymatch type of H with
      | (if true then _ else _) _ = _ => cbv beta iota in H; runo H
      | (if false then _ else _) _ = _ => cbv beta iota in H; runo H
      | (if ?c' then _ else _) _ = _ =>
          let e := fresh "e" in
          destruct c' eqn:e; cbv beta iota in H; runo H
      | _ => runo H
      end
  | (match ?x with _ => _ end) _ = _ =>
      simp_scrut H x;
      lazymatch type of H with
      | (match ?x' with _ => _ end) _ = _ =>
          first [ is_var x'; destruct x'
                | let e := fresh "e" in destruct x' eqn:e
                | idtac ];
          cbv beta iota in H; runo H
      | _ => runo H
      end
  | rip_loop _ _ _ _ = _ => idtac
  | _ => primo H
  end
with close_outcome_eq H :=
  lazymatch type of H with
  | ?o = Exit ?c ?s =>
      first [ is_var o; subst o
            | let Ha := fresh "Ha" in
              let Hs := fresh "Hs" in
              injection H as Ha Hs;
              first [subst s | idtac]; first [subst c | idtac] ]
  | ?o = Fault ?s =>
      first [ is_var o; subst o
            | let Hs := fresh "Hs" in
              injection H as Hs; first [subst s | idtac] ]
  end.

Lemma skipn_nth_error {A} (l : list A) i r :
  nth_error l i = Some r -> skipn i l = r :: skipn (S i) l.
Proof.
  revert i; induction l as [|a l IH]; intros [|i] H; try discriminate H.
  - injection H as ->. reflexivity.
  - cbn in H. apply IH in H. cbn [skipn]. exact H.
Qed.

Ltac flat_eqs :=
  repeat match goal with
         | H : @eq _ _ _ |- _ => progress flat H
         end.

Ltac some_vars :=
  repeat match goal with
         | H : Some _ = Some ?x |- _ =>
             is_var x; injection H as H; subst x
         end.

Ltac settle_layout :=
  flat_eqs; some_vars; flat_eqs; flat_goal;
  repeat match goal with
         | H : _preserve _ = _ |- _ => rewrite H; clear H
         end;
  do 6 eexists; repeat split; try reflexivity; try eassumption;
  repeat match goal with
         | H : slk_enabled _ = _ |- _ => rewrite H
         | H : slk_winptr _ = _ |- _ => rewrite H
         end;
  intros;
  match goal with
  | Hn : context [rip_win], Hj : nth_error _ _ = Some _ |- _ =>
      exact (Hn _ _ Hj)
  end.

(** ** The loop over the registrations *)

Section RipLoop.
Variable E : Env.

Lemma rip_once_linesripped r st : linesripped (rip_once E r st) = linesripped st.
Proof. unfold rip_once. destruct (SP st); reflexivity. Qed.

Lemma rip_once_SP r st s :
  SP st = Some s -> exists s1, SP (rip_once E r st) = Some s1.
Proof. intros H. unfold rip_once. rewrite H. eexists. reflexivity. Qed.

(** One round of the loop. *)
Lemma rip_loop_round n i st s r :
  SP st = Some s -> nth_error (linesripped st) i = Some r ->
  rip_loop E (S n) i st = rip_loop E n (S i) (rip_once E r st).
Proof.
  intros Hs Hr. cbn [rip_loop]. unfold rip_once.
  cbv [bind]. flat_goal. flat Hs. flat Hr. rewrite Hr, Hs.
  destruct (Z.ltb _ 0);
    repeat first
      [ progress cbn
      | rewrite Hs
      | match goal with
        | |- context [alloc_ok E ?a] => destruct (alloc_ok E a)
        end ];
    reflexivity.
Qed.

Lemma rip_loop_short n i st :
  nth_error (linesripped st) i = None -> rip_loop E (S n) i st = Fault st.
Proof.
  intros Hr. cbn [rip_loop]. cbv [bind]. flat_goal. flat Hr. rewrite Hr.
  reflexivity.
Qed.

Lemma rip_loop_total n : forall i st s,
  SP st = Some s -> (i + n <= List.length (linesripped st))%nat ->
  rip_loop E n i st = Ret tt (rip_result E (rip_visited n i st) st).
Proof.
  induction n as [|n IH]; intros i st s Hs Hb.
  - reflexivity.
  - destruct (nth_error (linesripped st) i) as [r|] eqn:Hr.
    2:{ apply nth_error_None in Hr. lia. }
    rewrite (rip_loop_round n i st s r Hs Hr).
    destruct (rip_once_SP r st s Hs) as (s1 & Hs1).
    rewrite (IH (S i) _ s1 Hs1) by (rewrite rip_once_linesripped; lia).
    unfold rip_visited. rewrite rip_once_linesripped.
    rewrite (skipn_nth_error _ _ _ Hr). reflexivity.
Qed.

Lemma rip_loop_fold n : forall i st s u st',
  SP st = Some s -> rip_loop E n i st = Ret u st' ->
  st' = rip_result E (rip_visited n i st) st /\
  (i + n <= List.length (linesripped st) \/ n = 0)%nat.
Proof.
  induction n as [|n IH]; intros i st s u st' Hs H.
  - cbn in H. injection H as _ <-. split; [reflexivity | right; reflexivity].
  - destruct (nth_error (linesripped st) i) as [r|] eqn:Hr.
    2:{ rewrite (rip_loop_short n i st Hr) in H. discriminate H. }
    rewrite (rip_loop_round n i st s r Hs Hr) in H.
    destruct (rip_once_SP r st s Hs) as (s1 & Hs1).
    apply (IH _ _ s1 _ _ Hs1) in H. destruct H as [-> Hb].
    rewrite rip_once_linesripped in Hb.
    assert (Hi : (i < List.length (linesripped st))%nat)
      by (apply nth_error_Some; congruence).
    split; [| left; lia].
    unfold rip_visited. rewrite rip_once_linesripped.
    rewrite (skipn_nth_error _ _ _ Hr). reflexivity.
Qed.

Lemma rip_tops_cons r regs :
  rip_tops (r :: regs) = (if line r <? 0 then 0 else 1) + rip_tops regs.
Proof.
  unfold rip_tops. cbn [filter]. destruct (line r <? 0); cbn [negb List.length].
  - reflexivity.
  - rewrite Nat2Z.inj_succ. lia.
Qed.

Lemma rip_result_closed_gen regs : forall st s c L top a,
  SP st = Some s -> COLS st = c -> LINES st = L ->
  linesrippedoffontop s = top -> allocs st = a ->
  exists l,
    List.length l = List.length regs /\
    (forall j r, nth_error regs j = Some r ->
       nth_error l j = Some (rip_win E regs c L top a j r)) /\
    rip_result E regs st
    = set_LINES (L - Z.of_nat (List.length regs))
        (set_SP
           (Some (set_linesrippedoffcnt
                    (linesrippedoffcnt s + Z.of_nat (List.length regs))
                    (set_linesrippedoffontop (top + rip_tops regs) s)))
           (set_ripped_wins (ripped_wins st ++ l)
              (set_allocs (a + List.length regs)%nat st))).
Proof.
  induction regs as [|r0 rest IH]; intros st s c L top a Hs Hc HL Ht Hal.
  - exists []. split; [reflexivity |]. split.
    + intros [|j] r H; discriminate H.
    + subst c L top a. cbn [rip_result List.length]. change (rip_tops []) with 0.
      destruct st. cbn in Hs. subst. flat_goal. cbn.
      rewrite !Z.add_0_r, Z.sub_0_r, app_nil_r, Nat.add_0_r.
      reflexivity.
  - cbn [rip_result]. unfold rip_once. rewrite Hs, Hc, HL, Ht, Hal. cbv zeta.
    pose proof (rip_tops_cons r0 rest) as Htops.
    destruct (line r0 <? 0) eqn:Hb; destruct (alloc_ok E a) eqn:Ha.
    all: match goal with
         | |- context [rip_result _ _ ?stx] =>
             destruct (IH stx _ c (L - 1)
                         (top + (if line r0 <? 0 then 0 else 1)) (S a) eq_refl)
               as (l & Hl & Hn & Heq);
             [ exact Hc | reflexivity | rewrite Hb; cbn; lia | reflexivity | ]
         end.
    all: exists (rip_win E (r0 :: rest) c L top a 0 r0 :: l).
    all: (split; [cbn [List.length]; rewrite Hl; reflexivity |]).
    all: (split;
          [ intros [|j] r Hr;
            [ injection Hr as ->; reflexivity
            | cbn [nth_error] in Hr |- *; rewrite (Hn j r Hr); f_equal;
              unfold rip_win, rip_row; cbn [firstn];
              rewrite rip_tops_cons, Hb;
              replace (S a + j)%nat with (a + S j)%nat by lia;
              rewrite Nat2Z.inj_succ;
              match goal with
              | |- init r ?X _ = init r ?Y _ =>
                  replace X with Y; [reflexivity |]
              end;
              destruct (alloc_ok E (a + S j)); [| reflexivity];
              do 2 f_equal; destruct (line r <? 0); lia ]
          | ]).
    all: rewrite Heq; unfold rip_win, rip_row; rewrite Hb, Nat.add_0_r, Ha.
    all: cbn [List.length firstn]; change (rip_tops []) with 0;
         change (Z.of_nat 0) with 0;
         rewrite Htops, Nat2Z.inj_succ, ?Z.sub_0_r, ?Z.add_0_r.
    all: replace (L - Z.succ (Z.of_nat (List.length rest)))
           with (L - 1 - Z.of_nat (List.length rest)) by lia;
         replace (linesrippedoffcnt s + Z.succ (Z.of_nat (List.length rest)))
           with (linesrippedoffcnt s + 1 + Z.of_nat (List.length rest)) by lia;
         replace (a + S (List.length rest))%nat
           with (S a + List.length rest)%nat by lia;
         rewrite ?Z.add_assoc.
    all: flat_goal; cbn -[Z.add Z.sub Z.of_nat]; rewrite <- app_assoc; cbn [app].
    all: rewrite ?Z.add_assoc, ?Z.add_0_r; reflexivity.
Qed.

(** The net effect of the rounds: the two counters, [LINES], the windows
    handed to the callbacks and the allocation count; nothing else. *)
Lemma rip_result_closed regs st s :
  SP st = Some s ->
  exists l,
    List.length l = List.length regs /\
    (forall j r, nth_error regs j = Some r ->
       nth_error l j
       = Some (rip_win E regs (COLS st) (LINES st) (linesrippedoffontop s)
                 (allocs st) j r)) /\
    rip_result E regs st
    = set_LINES (LINES st - Z.of_nat (List.length regs))
        (set_SP
           (Some (set_linesrippedoffcnt
                    (linesrippedoffcnt s + Z.of_nat (List.length regs))
                    (set_linesrippedoffontop
                       (linesrippedoffontop s + rip_tops regs) s)))
           (set_ripped_wins (ripped_wins st ++ l)
              (set_allocs (allocs st + List.length regs)%nat st))).
Proof.
  intros Hs. apply rip_result_closed_gen; auto.
Qed.

Lemma rip_loop_no_exit n : forall i st s c st',
  SP st = Some s -> rip_loop E n i st <> Exit c st'.
Proof.
  induction n as [|n IH]; intros i st s c st' Hs H.
  - discriminate H.
  - destruct (nth_error (linesripped st) i) as [r|] eqn:Hr.
    + rewrite (rip_loop_round n i st s r Hs Hr) in H.
      destruct (rip_once_SP r st s Hs) as (s1 & Hs1).
      exact (IH _ _ s1 _ _ Hs1 H).
    + rewrite (rip_loop_short n i st Hr) in H. discriminate H.
Qed.

(** A returning loop in closed form: the registrations it visited, the
    windows it built and the state it leaves. *)
Lemma rip_loop_closed n st s c L top a u st' :
  SP st = Some s -> COLS st = c -> LINES st = L ->
  linesrippedoffontop s = top -> allocs st = a ->
  rip_loop E n 0 st = Ret u st' ->
  List.length (firstn n (linesripped st)) = n /\
  exists l,
    List.length l = n /\
    (forall j r, nth_error (firstn n (linesripped st)) j = Some r ->
       nth_error l j
       = Some (rip_win E (firstn n (linesripped st)) c L top a j r)) /\
    st' = set_LINES (L - Z.of_nat n)
            (set_SP
               (Some (set_linesrippedoffcnt
                        (linesrippedoffcnt s + Z.of_nat n)
                        (set_linesrippedoffontop
                           (top + rip_tops (firstn n (linesripped st))) s)))
               (set_ripped_wins (ripped_wins st ++ l)
                  (set_allocs (a + n)%nat st))).
Proof.
  intros Hs Hc HL Ht Ha H.
  destruct (rip_loop_fold _ _ _ _ _ _ Hs H) as [HF Hb].
  assert (Hlen : List.length (firstn n (linesripped st)) = n).
  { destruct Hb as [Hb | Hb].
    - apply firstn_length_le. exact Hb.
    - subst n. reflexivity. }
  split; [exact Hlen|].
  destruct (rip_result_closed_gen (firstn n (linesripped st)) st s c L top a
              Hs Hc HL Ht Ha) as (l & Hl & Hn & HR).
  exists l. rewrite Hlen in Hl, HR.
  split; [exact Hl|]. split; [exact Hn|].
  rewrite HF. exact HR.
Qed.

(** Everything a returning run of lines 183-270 leaves behind. *)
Lemma Xinitscr_screens_layout st s w st' :
  SP st = Some s -> Xinitscr_screens E st = Ret w st' ->
  let n := Z.to_nat (linesrippedoff st) in
  let regs := firstn n (linesripped st) in
  let k := if slk_enabled E then slk_line_count E else slklines s in
  exists s' cw lw sw l a0,
    w = Some sw /\ SP st' = Some s' /\
    alive s' = true /\ lines s' = lines s /\ cols s' = cols s /\
    slklines s' = k /\ LINES st' = lines s - k - Z.of_nat n /\
    COLS st' = cols s /\
    curscr st' = Some cw /\ pdc_lastscr st' = Some lw /\ stdscr st' = Some sw /\
    List.length regs = n /\
    linesrippedoffontop s' = linesrippedoffontop s + rip_tops regs /\
    linesrippedoffcnt s' = linesrippedoffcnt s + Z.of_nat n /\
    _preserve s' = _preserve s /\ scr_addr s' = scr_addr s /\
    cw = mkWINDOW 0 0 (lines s) (cols s) 0 0 0
           (negb (_preserve s)) (negb (_preserve s)) /\
    lw = mkWINDOW 0 0 (lines s) (cols s) 0 0 (to_chtype E (-1)) false true /\
    sw = mkWINDOW 0 0 (lines s - k - Z.of_nat n) (cols s)
           (linesrippedoffontop s + rip_tops regs) 0 0 false
           (negb (_preserve s)) /\
    linesrippedoff st' = 0 /\ linesripped st' = linesripped st /\
    ripped_wins st' = (ripped_wins st ++ l)%list /\ List.length l = n /\
    (forall j r, nth_error regs j = Some r ->
       nth_error l j
       = Some (rip_win E regs (cols s) (lines s - k) (linesrippedoffontop s)
                 a0 j r)) /\
    ttytype st'
    = substring 0 127 ("pdcurses|PDCurses for " ++ drv_sysname E) /\
    c_sh_tty st' = Some s' /\ terminal st' = terminal st /\
    a0 = ((if slk_enabled E
           then match slk_winptr s with Some _ => 0 | None => 1 end
           else 0) + 2 + allocs st)%nat.
Proof.
  intros Hs H n regs k. unfold Xinitscr_screens in H. flat Hs.
  run H.
  all: lazymatch goal with
       | L : rip_loop _ _ _ ?stm = Ret ?u ?st0 |- _ =>
           destruct (rip_loop_closed _ stm _ _ _ _ _ u st0
                       eq_refl eq_refl eq_refl eq_refl eq_refl L)
             as (Hlen & ? & Hl & Hn & HF);
           clear L; subst st0
       end.
  all: settle_layout.
Qed.
End RipLoop.

Ltac close_loop :=
  lazymatch goal with
  | L : rip_loop _ _ _ ?stm = Ret ?u ?st0 |- _ =>
      destruct (rip_loop_closed _ _ stm _ _ _ _ _ u st0
                  eq_refl eq_refl eq_refl eq_refl eq_refl L)
        as (Hlen & ? & Hl & Hn & HF);
      clear L; subst st0
  | L : rip_loop _ _ _ ?stm = Exit ?c ?st0 |- _ =>
      exfalso; exact (rip_loop_no_exit _ _ _ stm _ c st0 eq_refl L)
  | _ => idtac
  end.

Ltac same_some :=
  repeat match goal with
         | H1 : ?x = Some ?a, H2 : ?x = Some ?b |- _ =>
             rewrite H1 in H2; injection H2 as H2; first [subst b | subst a]
         end.

Lemma substring_length_le n : forall s,
  (String.length (substring 0 n s) <= n)%nat.
Proof.
  induction n as [|n IH]; intros [|a s]; cbn; try lia.
  specialize (IH s). lia.
Qed.

Lemma substring_whole n : forall s,
  (String.length s <= n)%nat -> substring 0 n s = s.
Proof.
  induction n as [|n IH]; intros [|a s] H; cbn in *; try reflexivity; try lia.
  rewrite IH; [reflexivity | lia].
Qed.

Lemma ptr_eqb_eq p q : ptr_eqb p q = true <-> p = q.
Proof.
  destruct p as [a|], q as [b|]; cbn; split; intros H;
    try discriminate; try reflexivity.
  - apply Pos.eqb_eq in H. congruence.
  - injection H as ->. apply Pos.eqb_refl.
Qed.

(** ** Every way [Xinitscr] and [resize_term] can end *)

Section OutcomeFacts.

Variable E : Env.

(** What lines 166-181 keep of the record the driver allocated. *)
Lemma Xinitscr_defaults_keeps st s u st1 :
  SP st = Some s -> Xinitscr_defaults E st = Ret u st1 ->
  exists s1,
    st1 = set_SP (Some s1) st /\
    linesrippedoffcnt s1 = 0 /\ linesrippedoffontop s1 = 0 /\
    alive s1 = alive s /\ lines s1 = lines s /\ cols s1 = cols s /\
    slklines s1 = slklines s /\ _preserve s1 = _preserve s /\
    scr_addr s1 = scr_addr s /\ slk_winptr s1 = slk_winptr s.
Proof.
  intros Hs H. unfold Xinitscr_defaults in H. flat Hs. run H.
  eexists. split; [reflexivity|]. cbn. repeat split.
Qed.

(** The three ways [Xinitscr] returns, with the state in full for the
    two refusals. *)
Lemma Xinitscr_Ret_inv argc argv st w st' :
  Xinitscr E argc argv st = Ret w st' ->
  (SP_alive st = true /\ w = None /\ st' = st) \/
  (SP_alive st = false /\ drv_scr_open E argc argv (terminal st) = None /\
   w = None /\
   st' = set_stderr
           (stderr st ++ [("initscr(): Unable to create SP" ++ newline)%string])
           st) \/
  (SP_alive st = false /\
   exists s0 s1,
     drv_scr_open E argc argv (terminal st) = Some s0 /\
     linesrippedoffcnt s1 = 0 /\ linesrippedoffontop s1 = 0 /\
     alive s1 = alive s0 /\ lines s1 = lines s0 /\ cols s1 = cols s0 /\
     slklines s1 = slklines s0 /\ _preserve s1 = _preserve s0 /\
     scr_addr s1 = scr_addr s0 /\ slk_winptr s1 = slk_winptr s0 /\
     Xinitscr_screens E (set_SP (Some s1) (set_term_open true st))
     = Ret w st').
Proof.
  intros H. unfold Xinitscr in H.
  apply bind_inv in H. destruct H as (a & st0 & H0 & H). prim H0.
  cbv beta in H.
  destruct (SP_alive st) eqn:Ha; cbv beta iota in H.
  { left. prim H. auto. }
  right.
  apply bind_inv in H. destruct H as (r & st0 & H0 & H).
  unfold PDC_scr_open in H0.
  destruct (drv_scr_open E argc argv (terminal st)) as [s0|] eqn:Ho.
  2:{ left. prim H0. change (ERR =? ERR) with true in H. cbv beta iota in H.
      run H. repeat split. }
  right. prim H0. change (OK =? ERR) with false in H. cbv beta iota in H.
  apply bind_inv in H. destruct H as (u & st1 & H1 & H).
  match type of H1 with
  | Xinitscr_defaults _ ?stx = _ =>
      destruct (Xinitscr_defaults_keeps stx s0 _ _ eq_refl H1)
        as (s1 & -> & Hk)
  end.
  split; [reflexivity|]. exists s0, s1. split; [reflexivity|].
  destruct Hk as (k1 & k2 & k3 & k4 & k5 & k6 & k7 & k8 & k9).
  repeat (split; [assumption|]). exact H.
Qed.

(** Everything a successful [Xinitscr] leaves behind, in terms of the
    state before the call and the record [s0] the driver allocated. *)
Lemma Xinitscr_layout argc argv st w st' :
  Xinitscr E argc argv st = Ret (Some w) st' ->
  exists s0 s' cw lw l a0,
    SP_alive st = false /\
    drv_scr_open E argc argv (terminal st) = Some s0 /\
    SP st' = Some s' /\
    alive s' = true /\ lines s' = lines s0 /\ cols s' = cols s0 /\
    slklines s' = (if slk_enabled E then slk_line_count E else slklines s0) /\
    LINES st' = lines s0
                - (if slk_enabled E then slk_line_count E else slklines s0)
                - Z.of_nat (Z.to_nat (linesrippedoff st)) /\
    COLS st' = cols s0 /\
    curscr st' = Some cw /\ pdc_lastscr st' = Some lw /\
    stdscr st' = Some w /\
    List.length (firstn (Z.to_nat (linesrippedoff st)) (linesripped st))
    = Z.to_nat (linesrippedoff st) /\
    linesrippedoffontop s'
    = rip_tops (firstn (Z.to_nat (linesrippedoff st)) (linesripped st)) /\
    linesrippedoffcnt s' = Z.of_nat (Z.to_nat (linesrippedoff st)) /\
    _preserve s' = _preserve s0 /\ scr_addr s' = scr_addr s0 /\
    cw = mkWINDOW 0 0 (lines s0) (cols s0) 0 0 0
           (negb (_preserve s0)) (negb (_preserve s0)) /\
    lw = mkWINDOW 0 0 (lines s0) (cols s0) 0 0 (to_chtype E (-1)) false
           true /\
    w = mkWINDOW 0 0
          (lines s0
           - (if slk_enabled E then slk_line_count E else slklines s0)
           - Z.of_nat (Z.to_nat (linesrippedoff st)))
          (cols s0)
          (rip_tops (firstn (Z.to_nat (linesrippedoff st)) (linesripped st)))
          0 0 false (negb (_preserve s0)) /\
    linesrippedoff st' = 0 /\ linesripped st' = linesripped st /\
    ripped_wins st' = (ripped_wins st ++ l)%list /\
    List.length l = Z.to_nat (linesrippedoff st) /\
    (forall j r,
       nth_error (firstn (Z.to_nat (linesrippedoff st)) (linesripped st)) j
       = Some r ->
       nth_error l j
       = Some (rip_win E
                 (firstn (Z.to_nat (linesrippedoff st)) (linesripped st))
                 (cols s0)
                 (lines s0
                  - (if slk_enabled E then slk_line_count E else slklines s0))
                 0 a0 j r)) /\
    ttytype st'
    = substring 0 127 ("pdcurses|PDCurses for " ++ drv_sysname E) /\
    c_sh_tty st' = Some s' /\ terminal st' = terminal st /\
    a0 = ((if slk_enabled E
           then match slk_winptr s0 with Some _ => 0 | None => 1 end
           else 0) + 2 + allocs st)%nat.
Proof.
  intros H.
  destruct (Xinitscr_Ret_inv _ _ _ _ _ H)
    as [(_ & Hw & _) | [(_ & _ & Hw & _) | (Ha & s0 & s1 & Ho & K)]];
    try discriminate Hw.
  destruct K as (Hc & Ht & Hal & Hli & Hco & Hsl & Hp & Had & Hwp & K).
  match type of K with
  | Xinitscr_screens _ ?stx = _ =>
      pose proof (Xinitscr_screens_layout E stx s1 _ _ eq_refl K) as L
  end.
  cbv zeta in L.
  destruct L as (s' & cw & lw & sw & l & a0 & L).
  exists s0, s', cw, lw, l, a0.
  change (linesrippedoff (set_SP (Some s1) (set_term_open true st)))
    with (linesrippedoff st) in L.
  change (linesripped (set_SP (Some s1) (set_term_open true st)))
    with (linesripped st) in L.
  change (ripped_wins (set_SP (Some s1) (set_term_open true st)))
    with (ripped_wins st) in L.
  change (terminal (set_SP (Some s1) (set_term_open true st)))
    with (terminal st) in L.
  change (allocs (set_SP (Some s1) (set_term_open true st)))
    with (allocs st) in L.
  rewrite Hc, Ht, Hli, Hco, Hsl, Hp, Had, Hwp, ?Z.add_0_l in L.
  destruct L as (Hw & L). injection Hw as <-.
  split; [assumption|]. split; [assumption|]. exact L.
Qed.

(** The only fault of [Xinitscr] is a registration count that exceeds
    the table. *)
Lemma Xinitscr_no_fault argc argv st st' :
  (Z.to_nat (linesrippedoff st) <= List.length (linesripped st))%nat ->
  Xinitscr E argc argv st <> Fault st'.
Proof.
  intros Hb H. unfold Xinitscr in H.
  unfold Xinitscr_defaults, Xinitscr_screens in H.
  runo H.
  all: try match goal with
       | L : rip_loop _ ?n 0 ?stm = Fault _ |- _ =>
           rewrite (rip_loop_total _ n 0 stm _ eq_refl Hb) in L; discriminate L
       end.
  all: close_loop.
  all: flat_eqs; try discriminate.
Qed.

Lemma resize_term_no_exit nl nc st c st' :
  resize_term E nl nc st <> Exit c st'.
Proof.
  intros H. unfold resize_term in H. runo H.
Qed.

Lemma resize_term_no_fault nl nc st s st' :
  SP st = Some s -> resize_term E nl nc st <> Fault st'.
Proof.
  intros Hs H. flat Hs. unfold resize_term in H. runo H.
Qed.

Lemma resize_term_status nl nc st r st' :
  resize_term E nl nc st = Ret r st' -> r = OK \/ r = ERR.
Proof.
  intros H. unfold resize_term in H. run H.
  all: first [left; reflexivity | right; reflexivity].
Qed.

(** [resize_term] always returns when the display window, if any, comes
    with a session. *)
Lemma resize_term_total nl nc st :
  (stdscr st <> None -> SP st <> None) ->
  exists r st', resize_term E nl nc st = Ret r st' /\ (r = OK \/ r = ERR).
Proof.
  intros Hinv.
  destruct (resize_term E nl nc st) as [r st' | c st' | st'] eqn:H.
  - exists r, st'. split; [reflexivity|]. exact (resize_term_status _ _ _ _ _ H).
  - exfalso. exact (resize_term_no_exit _ _ _ _ _ H).
  - exfalso. destruct (stdscr st) as [w|] eqn:Hw.
    + destruct (SP st) as [s|] eqn:Hs.
      * exact (resize_term_no_fault _ _ _ _ _ Hs H).
      * apply Hinv; [discriminate | reflexivity].
    + cbv [resize_term bind gets] in H. flat H. flat Hw. rewrite Hw in H.
      discriminate H.
Qed.

End OutcomeFacts.

(** ** The guard of [resize_term] *)





(** ** [Xinitscr]: the ways it ends *)

(** X1: [Xinitscr] ends the process in three places only, after the
    driver has opened the terminal and with one message on [stderr]:
    status 4 when the terminal has fewer than two rows or columns (no
    window has been allocated), status 2 when [curscr] or [pdc_lastscr]
    cannot be allocated, status 1 when [stdscr] cannot.  The session
    record stays installed with the [alive] flag the driver gave it, and
    on status 1 the two screen buffers are left allocated. *)
Theorem Xinitscr_exit_status (E : Env) argc argv st c st' :
  Xinitscr E argc argv st = Exit c st' ->
  exists s0 s',
    SP_alive st = false /\
    drv_scr_open E argc argv (terminal st) = Some s0 /\
    SP st' = Some s' /\ alive s' = alive s0 /\
    List.length (stderr st') = S (List.length (stderr st)) /\
    ((c = 4 /\ (lines s0 < 2 \/ cols s0 < 2) /\
      curscr st' = curscr st /\ allocs st' = allocs st) \/
     (c = 2 /\ 2 <= lines s0 /\ 2 <= cols s0 /\
      (curscr st' = None \/ pdc_lastscr st' = None) /\
      stdscr st' = stdscr st) \/
     (c = 1 /\ 2 <= lines s0 /\ 2 <= cols s0 /\ stdscr st' = None /\
      curscr st' <> None /\ pdc_lastscr st' <> None)).
Proof.
  intros H. unfold Xinitscr in H. unfold Xinitscr_defaults, Xinitscr_screens in H.
  runo H.
  all: close_loop.
  all: flat_eqs; some_vars; flat_eqs.
  all: match goal with
       | e : drv_scr_open _ _ _ _ = Some ?s |- _ => exists s
       end; eexists; flat_goal.
  all: repeat match goal with
         | e : orb _ _ = true |- _ =>
             apply orb_true_iff in e; rewrite !Z.ltb_lt in e
         | e : orb _ _ = false |- _ =>
             apply orb_false_iff in e; rewrite !Z.ltb_ge in e; destruct e
         end.
  all: split; [reflexivity|]; split; [assumption|]; split; [reflexivity|];
       split; [reflexivity|]; split; [rewrite length_app, Nat.add_comm; reflexivity|].
  all: first [ left; split; [reflexivity|]; repeat split; assumption
             | right; left; split; [reflexivity|];
               repeat split; try assumption; try reflexivity;
               first [left; reflexivity | right; reflexivity]
             | right; right; split; [reflexivity|];
               repeat split; try assumption; try reflexivity; discriminate ].
Qed.

Lemma Xinitscr_exit_status_witness :
  exists s0 s',
    SP_alive (startup (mkTerminal 1 80)) = false /\
    drv_scr_open sample_env 0 [] (terminal (startup (mkTerminal 1 80)))
    = Some s0 /\
    SP exited_1x80 = Some s' /\ alive s' = alive s0 /\
    List.length (stderr exited_1x80)
    = S (List.length (stderr (startup (mkTerminal 1 80)))) /\
    ((4 = 4 /\ (lines s0 < 2 \/ cols s0 < 2) /\
      curscr exited_1x80 = curscr (startup (mkTerminal 1 80)) /\
      allocs exited_1x80 = allocs (startup (mkTerminal 1 80))) \/
     (4 = 2 /\ 2 <= lines s0 /\ 2 <= cols s0 /\
      (curscr exited_1x80 = None \/ pdc_lastscr exited_1x80 = None) /\
      stdscr exited_1x80 = stdscr (startup (mkTerminal 1 80))) \/
     (4 = 1 /\ 2 <= lines s0 /\ 2 <= cols s0 /\ stdscr exited_1x80 = None /\
      curscr exited_1x80 <> None /\ pdc_lastscr exited_1x80 <> None)).
Proof.
  apply (Xinitscr_exit_status sample_env 0 [] (startup (mkTerminal 1 80)) 4
           exited_1x80).
  reflexivity.
Defined.

(** X2: as long as the count of pending registrations does not exceed
    the table [linesripped], [Xinitscr] never dereferences a null
    pointer and never calls an unset callback: it returns or exits. *)
Theorem Xinitscr_never_faults (E : Env) argc argv st :
  (Z.to_nat (linesrippedoff st) <= List.length (linesripped st))%nat ->
  forall st', Xinitscr E argc argv st <> Fault st'.
Proof.
  intros Hb st'. apply Xinitscr_no_fault. exact Hb.
Qed.

Lemma Xinitscr_never_faults_witness :
  Xinitscr sample_env 0 [] registered_ttb <> Fault created_ttb.
Proof.
  apply (Xinitscr_never_faults sample_env 0 [] registered_ttb).
  vm_compute. lia.
Defined.

(** X3: [Xinitscr] returns [NULL] in two cases only.  With a live
    session nothing at all changes; otherwise the driver failed to open
    the terminal, and the only trace is the message on [stderr]: a
    suspended session, its windows and the pending registrations are
    untouched. *)
Theorem Xinitscr_NULL_cases (E : Env) argc argv st st' :
  Xinitscr E argc argv st = Ret None st' ->
  (SP_alive st = true /\ st' = st) \/
  (SP_alive st = false /\ drv_scr_open E argc argv (terminal st) = None /\
   st' = set_stderr
           (stderr st ++ [("initscr(): Unable to create SP" ++ newline)%string])
           st).
Proof.
  intros H.
  destruct (Xinitscr_Ret_inv E _ _ _ _ _ H)
    as [(Ha & _ & Hst) | [(Ha & Ho & _ & Hst) | (Ha & s0 & s1 & Ho & K)]].
  - left. auto.
  - right. auto.
  - exfalso.
    destruct K as (_ & _ & _ & _ & _ & _ & _ & _ & _ & K).
    match type of K with
    | Xinitscr_screens _ ?stx = _ =>
        destruct (Xinitscr_screens_layout E stx s1 _ _ eq_refl K)
          as (? & ? & ? & sw & ? & ? & Hw & _)
    end.
    discriminate Hw.
Qed.

Lemma Xinitscr_NULL_cases_witness :
  (SP_alive alive_24x80 = true /\ alive_24x80 = alive_24x80) \/
  (SP_alive alive_24x80 = false /\
   drv_scr_open sample_env 0 [] (terminal alive_24x80) = None /\
   alive_24x80
   = set_stderr
       (stderr alive_24x80
        ++ [("initscr(): Unable to create SP" ++ newline)%string])
       alive_24x80).
Proof.
  apply (Xinitscr_NULL_cases sample_env 0 [] alive_24x80 alive_24x80).
  reflexivity.
Defined.

(** X23: [Xinitscr] succeeds whenever nothing stands in its way: no
    live session, a driver that opens a terminal of at least 2 x 2,
    memory for every window, and pending registrations that are all in
    the table.  It then returns a window and neither returns [NULL] nor
    ends the process. *)
Theorem Xinitscr_succeeds (E : Env) argc argv st s0 :
  SP_alive st = false ->
  drv_scr_open E argc argv (terminal st) = Some s0 ->
  2 <= lines s0 -> 2 <= cols s0 ->
  (forall n, alloc_ok E n = true) ->
  (Z.to_nat (linesrippedoff st) <= List.length (linesripped st))%nat ->
  exists w st', Xinitscr E argc argv st = Ret (Some w) st'.
Proof.
  intros Ha Ho Hli Hco Hm Hb.
  destruct (Xinitscr E argc argv st) as [[w|] st' | c st' | st'] eqn:H.
  - exists w, st'. reflexivity.
  - exfalso.
    destruct (Xinitscr_Ret_inv E _ _ _ _ _ H)
      as [(Ha' & _) | [(_ & Ho' & _) | (_ & s0' & s1 & _ & K)]].
    + congruence.
    + congruence.
    + destruct K as (_ & _ & _ & _ & _ & _ & _ & _ & _ & K).
      match type of K with
      | Xinitscr_screens _ ?stx = _ =>
          destruct (Xinitscr_screens_layout E stx s1 _ _ eq_refl K)
            as (? & ? & ? & sw & ? & ? & Hw & _)
      end.
      discriminate Hw.
  - exfalso. unfold Xinitscr in H.
    unfold Xinitscr_defaults, Xinitscr_screens in H.
    runo H.
    all: close_loop.
    all: flat_eqs; same_some; some_vars; flat_eqs.
    all: try match goal with
             | e : alloc_ok _ ?n = false |- _ =>
                 rewrite (Hm n) in e; discriminate e
             end.
    apply orb_true_iff in e0. rewrite !Z.ltb_lt in e0.
    flat Hli. flat Hco. destruct e0; lia.
  - exfalso. exact (Xinitscr_no_fault E _ _ _ _ Hb H).
Qed.

Lemma Xinitscr_succeeds_witness :
  exists w st', Xinitscr sample_env 0 [] registered_ttb = Ret (Some w) st'.
Proof.
  apply (Xinitscr_succeeds sample_env 0 [] registered_ttb (zero_screen 24 80)).
  - reflexivity.
  - reflexivity.
  - cbn. lia.
  - cbn. lia.
  - intros n. reflexivity.
  - vm_compute. lia.
Defined.

(** ** [Xinitscr]: what a successful call leaves behind *)

(** X4: a successful [Xinitscr] serves the pending registrations in
    table order, one callback each, with the terminal width as second
    argument.  The window for the [j]-th callback is the allocation
    number [a0 + j] of the process, where [a0] counts the allocations
    before the call, the two screen buffers and the soft-label-key
    window if one was created: the callback gets [NULL] exactly when
    that allocation fails, and otherwise a window one row high, as wide
    as the terminal and in column 0; for a top registration its row is
    the number of top registrations before it, for a bottom
    registration it is [lines - slklines - 1 - j], where [j] counts all
    earlier registrations. *)
Theorem Xinitscr_ripped_rows (E : Env) argc argv st w st' s0 :
  drv_scr_open E argc argv (terminal st) = Some s0 ->
  Xinitscr E argc argv st = Ret (Some w) st' ->
  let n := Z.to_nat (linesrippedoff st) in
  let regs := firstn n (linesripped st) in
  let k := if slk_enabled E then slk_line_count E else slklines s0 in
  let a0 := ((if slk_enabled E
              then match slk_winptr s0 with Some _ => 0 | None => 1 end
              else 0) + 2 + allocs st)%nat in
  List.length regs = n /\
  exists l,
    ripped_wins st' = (ripped_wins st ++ l)%list /\ List.length l = n /\
    forall j r, nth_error regs j = Some r ->
      exists wj,
        nth_error l j = Some (init r wj (cols s0)) /\
        if alloc_ok E (a0 + j)
        then exists win,
               wj = Some win /\
               _maxy win = 1 /\ _maxx win = cols s0 /\ _begx win = 0 /\
               _begy win = if line r <? 0
                           then lines s0 - k - 1 - Z.of_nat j
                           else rip_tops (firstn j regs)
        else wj = None.
Proof.
  intros Ho H n regs k a0.
  destruct (Xinitscr_layout E _ _ _ _ _ H)
    as (s0' & s' & cw & lw & l & a1 & _ & Ho' & L).
  rewrite Ho in Ho'. injection Ho' as <-.
  destruct L as (_ & _ & _ & _ & _ & _ & _ & _ & _ & _ & Hlen & _ & _ & _ & _
                 & _ & _ & _ & _ & _ & Hr & Hl & Hn & _ & _ & _ & Ha).
  fold a0 in Ha. subst a1.
  split; [exact Hlen|]. exists l. split; [exact Hr|]. split; [exact Hl|].
  intros j r Hj. specialize (Hn j r Hj). unfold rip_win, rip_row in Hn.
  eexists. split; [exact Hn|].
  destruct (alloc_ok E (a0 + j)); [| reflexivity].
  eexists. split; [reflexivity|]. cbn.
  repeat (split; [reflexivity|]).
  destruct (line r <? 0); rewrite ?Z.add_0_l; reflexivity.
Qed.

Lemma Xinitscr_ripped_rows_witness :
  let regs := firstn 3 (linesripped registered_ttb) in
  List.length regs = 3%nat /\
  exists l,
    ripped_wins created_ttb = (ripped_wins registered_ttb ++ l)%list /\
    List.length l = 3%nat /\
    forall j r, nth_error regs j = Some r ->
      exists wj,
        nth_error l j = Some (init r wj 80) /\
        if alloc_ok sample_env (2 + j)
        then exists win,
               wj = Some win /\
               _maxy win = 1 /\ _maxx win = 80 /\ _begx win = 0 /\
               _begy win = if line r <? 0
                           then 24 - 0 - 1 - Z.of_nat j
                           else rip_tops (firstn j regs)
        else wj = None.
Proof.
  apply (Xinitscr_ripped_rows sample_env 0 [] registered_ttb
           (mkWINDOW 0 0 21 80 2 0 0 false true) created_ttb
           (zero_screen 24 80)).
  - reflexivity.
  - reflexivity.
Defined.

(** X5: after a successful [Xinitscr], [stdscr] starts in column 0 of
    the row below the top registrations, is as wide as the terminal and
    [lines - slklines - n] rows high for [n] registrations; [LINES] and
    [COLS] are its size, and the session counts [n] ripped-off lines, of
    which the top registrations are on top. *)
Theorem Xinitscr_stdscr_geometry (E : Env) argc argv st w st' s0 :
  drv_scr_open E argc argv (terminal st) = Some s0 ->
  Xinitscr E argc argv st = Ret (Some w) st' ->
  let n := Z.to_nat (linesrippedoff st) in
  let regs := firstn n (linesripped st) in
  let k := if slk_enabled E then slk_line_count E else slklines s0 in
  stdscr st' = Some w /\
  _begy w = rip_tops regs /\ _begx w = 0 /\
  _maxy w = lines s0 - k - Z.of_nat n /\ _maxx w = cols s0 /\
  LINES st' = _maxy w /\ COLS st' = _maxx w /\
  exists s', SP st' = Some s' /\
    linesrippedoffontop s' = rip_tops regs /\
    linesrippedoffcnt s' = Z.of_nat n /\
    lines s' = lines s0 /\ cols s' = cols s0 /\ slklines s' = k.
Proof.
  intros Ho H n regs k.
  destruct (Xinitscr_layout E _ _ _ _ _ H)
    as (s0' & s' & cw & lw & l & a0 & _ & Ho' & L).
  rewrite Ho in Ho'. injection Ho' as <-.
  destruct L as (Hs & _ & Hli & Hco & Hsl & HL & HC & _ & _ & Hstd & _ & Htop
                 & Hcnt & _ & _ & _ & _ & Hw & _).
  subst w. cbn.
  repeat split; try assumption.
  exists s'. repeat split; assumption.
Qed.

Lemma Xinitscr_stdscr_geometry_witness :
  let w := mkWINDOW 0 0 21 80 2 0 0 false true in
  let regs := firstn 3 (linesripped registered_ttb) in
  stdscr created_ttb = Some w /\
  _begy w = rip_tops regs /\ _begx w = 0 /\
  _maxy w = 24 - 0 - 3 /\ _maxx w = 80 /\
  LINES created_ttb = _maxy w /\ COLS created_ttb = _maxx w /\
  exists s', SP created_ttb = Some s' /\
    linesrippedoffontop s' = rip_tops regs /\
    linesrippedoffcnt s' = 3 /\
    lines s' = 24 /\ cols s' = 80 /\ slklines s' = 0.
Proof.
  apply (Xinitscr_stdscr_geometry sample_env 0 [] registered_ttb
           (mkWINDOW 0 0 21 80 2 0 0 false true) created_ttb
           (zero_screen 24 80)).
  - reflexivity.
  - reflexivity.
Defined.

Lemma to_chtype_m1 (E : Env) : to_chtype E (-1) = Z.ones (chtype_bits E).
Proof. unfold to_chtype. apply Z.land_m1_l. Qed.

(** X6: after a successful [Xinitscr], [curscr] and [pdc_lastscr] cover
    the whole terminal from its origin and [pdc_lastscr] carries the
    attribute value [(chtype)(-1)], every bit of a [chtype] set.
    [curscr] is marked for a full clear exactly when [SP->_preserve] is
    off; with [_preserve] set, [stdscr] is not marked for a clear
    either. *)
Theorem Xinitscr_screen_buffers (E : Env) argc argv st w st' s0 :
  drv_scr_open E argc argv (terminal st) = Some s0 ->
  Xinitscr E argc argv st = Ret (Some w) st' ->
  exists cw lw,
    curscr st' = Some cw /\ pdc_lastscr st' = Some lw /\
    _maxy cw = lines s0 /\ _maxx cw = cols s0 /\
    _begy cw = 0 /\ _begx cw = 0 /\
    _maxy lw = lines s0 /\ _maxx lw = cols s0 /\
    _begy lw = 0 /\ _begx lw = 0 /\
    _attrs lw = Z.ones (chtype_bits E) /\
    _clear cw = negb (_preserve s0) /\
    (_preserve s0 = true -> _clear w = false).
Proof.
  intros Ho H.
  destruct (Xinitscr_layout E _ _ _ _ _ H)
    as (s0' & s' & cw & lw & l & a0 & _ & Ho' & L).
  rewrite Ho in Ho'. injection Ho' as <-.
  destruct L as (_ & _ & _ & _ & _ & _ & _ & Hc & Hl & _ & _ & _
                 & _ & _ & _ & Hcw & Hlw & Hw & _).
  exists cw, lw. subst cw lw w. cbn.
  repeat (split; [first [assumption | reflexivity | apply to_chtype_m1]|]).
  intros _. reflexivity.
Qed.

Lemma Xinitscr_screen_buffers_witness :
  exists cw lw,
    curscr created_ttb = Some cw /\ pdc_lastscr created_ttb = Some lw /\
    _maxy cw = 24 /\ _maxx cw = 80 /\ _begy cw = 0 /\ _begx cw = 0 /\
    _maxy lw = 24 /\ _maxx lw = 80 /\ _begy lw = 0 /\ _begx lw = 0 /\
    _attrs lw = 4294967295 /\
    _clear cw = negb false /\
    (false = true -> _clear (mkWINDOW 0 0 21 80 2 0 0 false true) = false).
Proof.
  apply (Xinitscr_screen_buffers sample_env 0 [] registered_ttb
           (mkWINDOW 0 0 21 80 2 0 0 false true) created_ttb
           (zero_screen 24 80)).
  - reflexivity.
  - reflexivity.
Defined.

(** X7: a successful [Xinitscr] uses up the pending registrations: the
    count [linesrippedoff] is reset to 0 while the table itself keeps
    its entries, every pending registration was in the table, and each
    one got exactly one callback. *)
Theorem Xinitscr_consumes_registrations (E : Env) argc argv st w st' :
  Xinitscr E argc argv st = Ret (Some w) st' ->
  linesrippedoff st' = 0 /\ linesripped st' = linesripped st /\
  (Z.to_nat (linesrippedoff st) <= List.length (linesripped st))%nat /\
  List.length (ripped_wins st')
  = (List.length (ripped_wins st) + Z.to_nat (linesrippedoff st))%nat.
Proof.
  intros H.
  destruct (Xinitscr_layout E _ _ _ _ _ H)
    as (s0' & s' & cw & lw & l & a0 & _ & Ho' & L).
  destruct L as (_ & _ & _ & _ & _ & _ & _ & _ & _ & _ & Hlen & _ & _ & _ & _
                 & _ & _ & _ & Hoff & Htbl & Hr & Hl & _).
  split; [exact Hoff|]. split; [exact Htbl|]. split.
  - rewrite <- Hlen at 1. rewrite length_firstn. apply Nat.le_min_r.
  - rewrite Hr, length_app, Hl. reflexivity.
Qed.

Lemma Xinitscr_consumes_registrations_witness :
  linesrippedoff created_ttb = 0 /\
  linesripped created_ttb = linesripped registered_ttb /\
  (Z.to_nat (linesrippedoff registered_ttb)
   <= List.length (linesripped registered_ttb))%nat /\
  List.length (ripped_wins created_ttb)
  = (List.length (ripped_wins registered_ttb)
     + Z.to_nat (linesrippedoff registered_ttb))%nat.
Proof.
  apply (Xinitscr_consumes_registrations sample_env 0 [] registered_ttb
           (mkWINDOW 0 0 21 80 2 0 0 false true) created_ttb).
  reflexivity.
Defined.

(** X8: after a successful [Xinitscr], [ttytype] is the text
    "pdcurses|PDCurses for " followed by the driver's platform name, cut
    to 127 characters, so that it fits the 128-byte buffer with its
    terminator; a platform name of up to 105 characters is kept whole. *)
Theorem Xinitscr_ttytype (E : Env) argc argv st w st' :
  Xinitscr E argc argv st = Ret (Some w) st' ->
  ttytype st' = substring 0 127 ("pdcurses|PDCurses for " ++ drv_sysname E) /\
  (String.length (ttytype st') <= 127)%nat /\
  ((String.length (drv_sysname E) <= 105)%nat ->
   ttytype st' = "pdcurses|PDCurses for " ++ drv_sysname E).
Proof.
  intros H.
  destruct (Xinitscr_layout E _ _ _ _ _ H)
    as (s0' & s' & cw & lw & l & a0 & _ & Ho' & L).
  destruct L as (_ & _ & _ & _ & _ & _ & _ & _ & _ & _ & _ & _ & _ & _ & _
                 & _ & _ & _ & _ & _ & _ & _ & _ & Ht & _).
  split; [exact Ht|]. split.
  - rewrite Ht. apply substring_length_le.
  - intros Hn. rewrite Ht. apply substring_whole.
    cbn [String.append String.length]. lia.
Qed.

Lemma Xinitscr_ttytype_witness :
  ttytype created_ttb
  = substring 0 127 ("pdcurses|PDCurses for " ++ drv_sysname sample_env) /\
  (String.length (ttytype created_ttb) <= 127)%nat /\
  ((String.length (drv_sysname sample_env) <= 105)%nat ->
   ttytype created_ttb = "pdcurses|PDCurses for " ++ drv_sysname sample_env).
Proof.
  apply (Xinitscr_ttytype sample_env 0 [] registered_ttb
           (mkWINDOW 0 0 21 80 2 0 0 false true) created_ttb).
  reflexivity.
Defined.

(** X9: a successful [Xinitscr] leaves a live session: [isendwin]
    answers [FALSE], the shell mode saved by [def_shell_mode] is the
    session record with [alive] already set, and any further [Xinitscr]
    returns [NULL] without changing anything. *)
Theorem Xinitscr_session_alive (E : Env) argc argv st w st' :
  Xinitscr E argc argv st = Ret (Some w) st' ->
  (exists s', SP st' = Some s' /\ alive s' = true /\ c_sh_tty st' = Some s') /\
  isendwin st' = Ret false st' /\
  forall argc' argv', Xinitscr E argc' argv' st' = Ret None st'.
Proof.
  intros H.
  destruct (Xinitscr_layout E _ _ _ _ _ H)
    as (s0' & s' & cw & lw & l & a0 & _ & Ho' & L).
  destruct L as (Hs & Hal & L).
  assert (Hsh : c_sh_tty st' = Some s') by apply L.
  split; [exists s'; auto|].
  flat Hs. flat Hal.
  split.
  - cbv [isendwin gets]. flat_goal. rewrite Hs. flat_goal. rewrite Hal.
    reflexivity.
  - intros argc' argv'. cbv [Xinitscr bind gets SP_alive]. flat_goal.
    rewrite Hs. flat_goal. rewrite Hal. reflexivity.
Qed.

Lemma Xinitscr_session_alive_witness :
  (exists s', SP created_ttb = Some s' /\ alive s' = true /\
              c_sh_tty created_ttb = Some s') /\
  isendwin created_ttb = Ret false created_ttb /\
  forall argc' argv',
    Xinitscr sample_env argc' argv' created_ttb = Ret None created_ttb.
Proof.
  apply (Xinitscr_session_alive sample_env 0 [] registered_ttb
           (mkWINDOW 0 0 21 80 2 0 0 false true) created_ttb).
  reflexivity.
Defined.

(** ** [resize_term] *)

(** X10: with a session, [resize_term] always returns to its caller,
    with [OK] or [ERR]: it never ends the process and never dereferences
    a null pointer, whatever the driver and the allocator do. *)
Theorem resize_term_returns (E : Env) nl nc st s :
  SP st = Some s ->
  exists r st', resize_term E nl nc st = Ret r st' /\ (r = OK \/ r = ERR).
Proof.
  intros Hs. apply resize_term_total. intros _. rewrite Hs. discriminate.
Qed.

Lemma resize_term_returns_witness :
  exists r st',
    resize_term sample_env 30 100 alive_24x80 = Ret r st' /\
    (r = OK \/ r = ERR).
Proof.
  apply (resize_term_returns sample_env 30 100 alive_24x80
           (the_screen alive_24x80)).
  reflexivity.
Defined.

(** X11: however [resize_term] returns, the session keeps its [alive]
    flag, its input and output modes, its cursor visibility, [_preserve]
    and both ripped-off-line counters; the registrations, the windows
    handed to their callbacks, [ttytype], [stderr] and the saved
    terminal modes are untouched, the terminal is neither opened nor
    closed, and [stdscr] keeps its origin. *)
Theorem resize_term_frame (E : Env) nl nc st r st' s :
  SP st = Some s -> resize_term E nl nc st = Ret r st' ->
  (exists s', SP st' = Some s' /\
     alive s' = alive s /\ autocr s' = autocr s /\ cbreak s' = cbreak s /\
     echo s' = echo s /\ raw_inp s' = raw_inp s /\ raw_out s' = raw_out s /\
     visibility s' = visibility s /\ _preserve s' = _preserve s /\
     linesrippedoffcnt s' = linesrippedoffcnt s /\
     linesrippedoffontop s' = linesrippedoffontop s /\
     scr_addr s' = scr_addr s) /\
  linesripped st' = linesripped st /\ linesrippedoff st' = linesrippedoff st /\
  ripped_wins st' = ripped_wins st /\ ttytype st' = ttytype st /\
  stderr st' = stderr st /\ c_sh_tty st' = c_sh_tty st /\
  c_pr_tty st' = c_pr_tty st /\ term_open st' = term_open st /\
  (forall w w', stdscr st = Some w -> stdscr st' = Some w' ->
     _begy w' = _begy w /\ _begx w' = _begx w).
Proof.
  intros Hs H. flat Hs. unfold resize_term in H. run H.
  all: flat_eqs; some_vars; flat_eqs.
  all: split; [eexists; flat_goal;
               split; [first [reflexivity | eassumption]|]; repeat split|].
  all: flat_goal; repeat (split; [reflexivity|]).
  all: intros ? ? ? ?; flat_eqs; same_some; some_vars; flat_goal;
       split; reflexivity.
Qed.

Lemma resize_term_frame_witness :
  (exists s', SP adopted_30x100 = Some s' /\
     alive s' = alive (the_screen resized_30x100) /\
     autocr s' = autocr (the_screen resized_30x100) /\
     cbreak s' = cbreak (the_screen resized_30x100) /\
     echo s' = echo (the_screen resized_30x100) /\
     raw_inp s' = raw_inp (the_screen resized_30x100) /\
     raw_out s' = raw_out (the_screen resized_30x100) /\
     visibility s' = visibility (the_screen resized_30x100) /\
     _preserve s' = _preserve (the_screen resized_30x100) /\
     linesrippedoffcnt s' = linesrippedoffcnt (the_screen resized_30x100) /\
     linesrippedoffontop s'
     = linesrippedoffontop (the_screen resized_30x100) /\
     scr_addr s' = scr_addr (the_screen resized_30x100)) /\
  linesripped adopted_30x100 = linesripped resized_30x100 /\
  linesrippedoff adopted_30x100 = linesrippedoff resized_30x100 /\
  ripped_wins adopted_30x100 = ripped_wins resized_30x100 /\
  ttytype adopted_30x100 = ttytype resized_30x100 /\
  stderr adopted_30x100 = stderr resized_30x100 /\
  c_sh_tty adopted_30x100 = c_sh_tty resized_30x100 /\
  c_pr_tty adopted_30x100 = c_pr_tty resized_30x100 /\
  term_open adopted_30x100 = term_open resized_30x100 /\
  (forall w w', stdscr resized_30x100 = Some w ->
     stdscr adopted_30x100 = Some w' ->
     _begy w' = _begy w /\ _begx w' = _begx w).
Proof.
  apply (resize_term_frame sample_env 0 0 resized_30x100 OK adopted_30x100
           (the_screen resized_30x100)).
  - reflexivity.
  - reflexivity.
Defined.

(** X12: when [resize_term] returns [OK], the session's [lines] and
    [cols] and the global [COLS] are the size the terminal now has,
    [curscr] and [pdc_lastscr] have exactly that size, [stdscr] is
    [LINES] by [COLS], [curscr] is marked for a full clear, and the
    soft-label-key window, if any, spans the new width. *)
Theorem resize_term_success_geometry (E : Env) nl nc st st' :
  resize_term E nl nc st = Ret OK st' ->
  exists s' cw sw lw,
    SP st' = Some s' /\ curscr st' = Some cw /\ stdscr st' = Some sw /\
    pdc_lastscr st' = Some lw /\
    lines s' = t_rows (terminal st') /\ cols s' = t_cols (terminal st') /\
    COLS st' = t_cols (terminal st') /\
    _maxy cw = t_rows (terminal st') /\ _maxx cw = t_cols (terminal st') /\
    _maxy lw = t_rows (terminal st') /\ _maxx lw = t_cols (terminal st') /\
    _maxy sw = LINES st' /\ _maxx sw = t_cols (terminal st') /\
    _clear cw = true /\
    (forall kw, slk_winptr s' = Some kw -> _maxx kw = t_cols (terminal st')).
Proof.
  intros H. unfold resize_term in H. run H.
  all: flat_eqs; some_vars; flat_eqs.
  all: do 4 eexists; flat_goal.
  all: repeat (split; [reflexivity|]).
  all: intros kw Hk; flat_eqs; try discriminate; same_some; some_vars;
       flat_goal; reflexivity.
Qed.

Lemma resize_term_success_geometry_witness :
  exists s' cw sw lw,
    SP adopted_30x100 = Some s' /\ curscr adopted_30x100 = Some cw /\
    stdscr adopted_30x100 = Some sw /\ pdc_lastscr adopted_30x100 = Some lw /\
    lines s' = t_rows (terminal adopted_30x100) /\
    cols s' = t_cols (terminal adopted_30x100) /\
    COLS adopted_30x100 = t_cols (terminal adopted_30x100) /\
    _maxy cw = t_rows (terminal adopted_30x100) /\
    _maxx cw = t_cols (terminal adopted_30x100) /\
    _maxy lw = t_rows (terminal adopted_30x100) /\
    _maxx lw = t_cols (terminal adopted_30x100) /\
    _maxy sw = LINES adopted_30x100 /\
    _maxx sw = t_cols (terminal adopted_30x100) /\
    _clear cw = true /\
    (forall kw, slk_winptr s' = Some kw ->
       _maxx kw = t_cols (terminal adopted_30x100)).
Proof.
  apply (resize_term_success_geometry sample_env 0 0 resized_30x100
           adopted_30x100).
  reflexivity.
Defined.

(** X13: when the driver refuses the new size, [resize_term] returns
    [ERR] at once: the three screen windows, [LINES] and [COLS] are as
    before and nothing has been allocated; only what the driver itself
    did to the terminal and to [SP->resized] remains. *)
Theorem resize_term_driver_refusal (E : Env) nl nc st w t b :
  stdscr st = Some w ->
  drv_resize_screen E nl nc (terminal st) (SP st) = (ERR, t, b) ->
  exists st',
    resize_term E nl nc st = Ret ERR st' /\
    curscr st' = curscr st /\ stdscr st' = stdscr st /\
    pdc_lastscr st' = pdc_lastscr st /\
    LINES st' = LINES st /\ COLS st' = COLS st /\ allocs st' = allocs st /\
    terminal st' = t /\
    SP st' = option_map (set_resized b) (SP st).
Proof.
  intros Hw Hd. flat Hw. flat Hd.
  eexists. split.
  - cbv [resize_term bind gets]. flat_goal. rewrite Hw.
    cbv [bind]. flat_goal. rewrite Hd. cbn. reflexivity.
  - flat_goal. repeat split.
Qed.

Lemma resize_term_driver_refusal_witness :
  exists st',
    resize_term sample_env_fixed 30 100 alive_24x80 = Ret ERR st' /\
    curscr st' = curscr alive_24x80 /\ stdscr st' = stdscr alive_24x80 /\
    pdc_lastscr st' = pdc_lastscr alive_24x80 /\
    LINES st' = LINES alive_24x80 /\ COLS st' = COLS alive_24x80 /\
    allocs st' = allocs alive_24x80 /\
    terminal st' = mkTerminal 24 80 /\
    SP st' = option_map (set_resized false) (SP alive_24x80).
Proof.
  apply (resize_term_driver_refusal sample_env_fixed 30 100 alive_24x80
           (mkWINDOW 0 0 24 80 0 0 0 false true)).
  - reflexivity.
  - reflexivity.
Defined.

(** X14: [resize_term] does not roll back.  When it returns [ERR] after
    the driver has accepted the new size, the session's [lines] and
    [cols], [LINES] and [COLS] already describe the new terminal; if it
    was the first window resize that failed for lack of memory, all
    three screen windows still have their old size. *)
Theorem resize_term_no_rollback (E : Env) nl nc st st' w r t b :
  stdscr st = Some w ->
  drv_resize_screen E nl nc (terminal st) (SP st) = (r, t, b) ->
  r <> ERR ->
  resize_term E nl nc st = Ret ERR st' ->
  exists s s',
    SP st = Some s /\ SP st' = Some s' /\ terminal st' = t /\
    lines s' = t_rows t /\ cols s' = t_cols t /\
    LINES st' = t_rows t - linesrippedoffcnt s - slklines s /\
    COLS st' = t_cols t /\
    (alloc_ok E (allocs st) = false ->
     curscr st' = curscr st /\ stdscr st' = stdscr st /\
     pdc_lastscr st' = pdc_lastscr st).
Proof.
  intros Hw Hd Hr H. flat Hw. flat Hd. unfold resize_term in H. run H.
  all: flat_eqs; same_some; some_vars; flat_eqs.
  all: try match goal with
           | e : (_ =? ERR) = true |- _ =>
               apply Z.eqb_eq in e; contradiction
           end.
  all: match goal with e : SP _ = Some ?s |- _ => exists s end;
       eexists; flat_goal.
  all: repeat (split; [first [reflexivity | assumption]|]).
  all: intros Ha; first [congruence | repeat split; congruence].
Qed.

Lemma resize_term_no_rollback_witness :
  exists s s',
    SP alive_24x80 = Some s /\ SP starved_30x100 = Some s' /\
    terminal starved_30x100 = mkTerminal 30 100 /\
    lines s' = 30 /\ cols s' = 100 /\
    LINES starved_30x100 = 30 - linesrippedoffcnt s - slklines s /\
    COLS starved_30x100 = 100 /\
    (alloc_ok sample_env_tight (allocs alive_24x80) = false ->
     curscr starved_30x100 = curscr alive_24x80 /\
     stdscr starved_30x100 = stdscr alive_24x80 /\
     pdc_lastscr starved_30x100 = pdc_lastscr alive_24x80).
Proof.
  apply (resize_term_no_rollback sample_env_tight 30 100 alive_24x80
           starved_30x100 (mkWINDOW 0 0 24 80 0 0 0 false true) OK
           (mkTerminal 30 100) false).
  - reflexivity.
  - reflexivity.
  - discriminate.
  - reflexivity.
Defined.

(** X24: [resize_term] succeeds whenever nothing stands in its way: a
    session with its three screen windows, a driver that accepts the new
    size and memory for every window.  It then returns [OK]. *)
Theorem resize_term_succeeds (E : Env) nl nc st s w cw lw r t b :
  SP st = Some s -> stdscr st = Some w -> curscr st = Some cw ->
  pdc_lastscr st = Some lw ->
  drv_resize_screen E nl nc (terminal st) (SP st) = (r, t, b) ->
  r <> ERR ->
  (forall n, alloc_ok E n = true) ->
  exists st', resize_term E nl nc st = Ret OK st'.
Proof.
  intros Hs Hw Hcw Hlw Hd Hr Hm.
  assert (Hinv : stdscr st <> None -> SP st <> None).
  { intros _. rewrite Hs. discriminate. }
  destruct (resize_term_total E nl nc st Hinv) as (r0 & st' & H & [-> | ->]).
  - exists st'. exact H.
  - exfalso. flat Hs. flat Hw. flat Hcw. flat Hlw. flat Hd.
    unfold resize_term in H. run H.
    all: flat_eqs; same_some; some_vars; flat_eqs.
    all: try match goal with
             | e : alloc_ok _ ?n = false |- _ =>
                 rewrite (Hm n) in e; discriminate e
             end.
    all: try match goal with
           | e : (_ =? ERR) = true |- _ =>
               apply Z.eqb_eq in e; contradiction
           end.
Qed.

Lemma resize_term_succeeds_witness :
  exists st', resize_term sample_env 30 100 alive_24x80 = Ret OK st'.
Proof.
  apply (resize_term_succeeds sample_env 30 100 alive_24x80
           (the_screen alive_24x80)
           (mkWINDOW 0 0 24 80 0 0 0 false true)
           (mkWINDOW 0 0 24 80 0 0 0 true true)
           (mkWINDOW 0 0 24 80 0 0 4294967295 false true)
           OK (mkTerminal 30 100) false).
  - reflexivity.
  - reflexivity.
  - reflexivity.
  - reflexivity.
  - reflexivity.
  - discriminate.
  - intros n. reflexivity.
Defined.

(** ** [endwin], [delscreen], [set_term] and [newterm] *)

(** X15: [endwin] on a session saves the program mode before it clears
    [alive], so the saved copy is the session as it was; it closes the
    terminal, and [isendwin] answers [TRUE] afterwards.  A second
    [endwin] succeeds as well and leaves the session and the three
    screen windows as the first one did. *)
Theorem endwin_suspends st s :
  SP st = Some s ->
  exists st1 st2,
    endwin st = Ret OK st1 /\
    c_pr_tty st1 = Some s /\ term_open st1 = false /\
    isendwin st1 = Ret true st1 /\
    endwin st1 = Ret OK st2 /\
    SP st2 = SP st1 /\ curscr st2 = curscr st /\ stdscr st2 = stdscr st /\
    pdc_lastscr st2 = pdc_lastscr st /\ term_open st2 = false /\
    isendwin st2 = Ret true st2.
Proof.
  intros Hs. flat Hs.
  do 2 eexists.
  split. { cbv [endwin bind]. flat_goal. rewrite Hs. reflexivity. }
  flat_goal. repeat split.
Qed.

Lemma endwin_suspends_witness :
  exists st1 st2,
    endwin alive_24x80 = Ret OK st1 /\
    c_pr_tty st1 = Some (the_screen alive_24x80) /\ term_open st1 = false /\
    isendwin st1 = Ret true st1 /\
    endwin st1 = Ret OK st2 /\
    SP st2 = SP st1 /\ curscr st2 = curscr alive_24x80 /\
    stdscr st2 = stdscr alive_24x80 /\
    pdc_lastscr st2 = pdc_lastscr alive_24x80 /\ term_open st2 = false /\
    isendwin st2 = Ret true st2.
Proof.
  apply (endwin_suspends alive_24x80 (the_screen alive_24x80)).
  reflexivity.
Defined.

(** X16: [endwin] without a session does not return: [SP->alive = false]
    writes through the null [SP]. *)
Theorem endwin_without_session_faults st :
  SP st = None -> exists st', endwin st = Fault st'.
Proof.
  intros Hs. flat Hs. eexists.
  cbv [endwin bind]. flat_goal. rewrite Hs. reflexivity.
Qed.

Lemma endwin_without_session_faults_witness :
  exists st', endwin (startup (mkTerminal 24 80)) = Fault st'.
Proof.
  apply (endwin_without_session_faults (startup (mkTerminal 24 80))).
  reflexivity.
Defined.

(** X17: [delscreen] on the current session takes everything down: [SP]
    and the three screen windows are [NULL] and the terminal is released,
    while [LINES], [COLS] and the pending registrations stay.  Afterwards
    [isendwin] answers [FALSE], [resize_term] is refused with [ERR], and
    deleting the same, now stale, pointer again does nothing. *)
Theorem delscreen_releases_everything st s :
  SP st = Some s ->
  exists st',
    delscreen (Some (scr_addr s)) st = Ret tt st' /\
    SP st' = None /\ stdscr st' = None /\ curscr st' = None /\
    pdc_lastscr st' = None /\ term_open st' = false /\
    LINES st' = LINES st /\ COLS st' = COLS st /\
    linesrippedoff st' = linesrippedoff st /\
    isendwin st' = Ret false st' /\
    delscreen (Some (scr_addr s)) st' = Ret tt st' /\
    forall E nl nc, resize_term E nl nc st' = Ret ERR st'.
Proof.
  intros Hs. flat Hs. eexists. split.
  - cbv [delscreen bind gets SP_ptr]. flat_goal. rewrite Hs.
    cbv [ptr_eqb negb]. rewrite Pos.eqb_refl. flat_goal. rewrite Hs.
    reflexivity.
  - flat_goal. repeat split.
Qed.

Lemma delscreen_releases_everything_witness :
  exists st',
    delscreen (Some (scr_addr (the_screen alive_24x80))) alive_24x80
    = Ret tt st' /\
    SP st' = None /\ stdscr st' = None /\ curscr st' = None /\
    pdc_lastscr st' = None /\ term_open st' = false /\
    LINES st' = LINES alive_24x80 /\ COLS st' = COLS alive_24x80 /\
    linesrippedoff st' = linesrippedoff alive_24x80 /\
    isendwin st' = Ret false st' /\
    delscreen (Some (scr_addr (the_screen alive_24x80))) st' = Ret tt st' /\
    forall E nl nc, resize_term E nl nc st' = Ret ERR st'.
Proof.
  apply (delscreen_releases_everything alive_24x80 (the_screen alive_24x80)).
  reflexivity.
Defined.

(** X18: [delscreen] with any pointer other than the current [SP] is a
    no-op: it returns with the state unchanged, whether a session exists
    or not. *)
Theorem delscreen_other_pointer_ignored st p :
  p <> SP_ptr st -> delscreen p st = Ret tt st.
Proof.
  intros Hp. cbv [delscreen bind gets].
  destruct (ptr_eqb p (SP_ptr st)) eqn:He.
  - apply ptr_eqb_eq in He. contradiction.
  - reflexivity.
Qed.

Lemma delscreen_other_pointer_ignored_witness :
  delscreen (Some 2%positive) alive_24x80 = Ret tt alive_24x80.
Proof.
  apply (delscreen_other_pointer_ignored alive_24x80 (Some 2%positive)).
  vm_compute. discriminate.
Defined.

Lemma set_term_cases q st :
  exists r,
    set_term q st = Ret r st /\
    ((q = SP_ptr st /\ r = q) \/ (q <> SP_ptr st /\ r = None)).
Proof.
  cbv [set_term bind gets].
  destruct (ptr_eqb q (SP_ptr st)) eqn:He.
  - apply ptr_eqb_eq in He. eexists. split; [reflexivity|]. left. auto.
  - eexists. split; [reflexivity|]. right. split; [|reflexivity].
    intros Hq. apply ptr_eqb_eq in Hq. congruence.
Qed.

(** X19: [set_term] never changes anything and never switches screens:
    it hands back its argument when that is the current [SP], and [NULL]
    for every other pointer. *)
Theorem set_term_one_screen q st r st' :
  set_term q st = Ret r st' ->
  st' = st /\ ((q = SP_ptr st /\ r = q) \/ (q <> SP_ptr st /\ r = None)).
Proof.
  intros H. destruct (set_term_cases q st) as (r0 & Hr & Hc).
  rewrite Hr in H. injection H as <- <-. auto.
Qed.

Lemma set_term_one_screen_witness :
  alive_24x80 = alive_24x80 /\
  ((Some 1%positive = SP_ptr alive_24x80 /\
    Some 1%positive = Some 1%positive) \/
   (Some 1%positive <> SP_ptr alive_24x80 /\ Some 1%positive = None)).
Proof.
  apply (set_term_one_screen (Some 1%positive) alive_24x80
           (Some 1%positive) alive_24x80).
  reflexivity.
Defined.

(** X20: [newterm] is [Xinitscr] without arguments.  It returns [NULL]
    exactly when [Xinitscr] does, and otherwise the address of the live
    session it created; that address is the one pointer [set_term]
    accepts afterwards. *)
Theorem newterm_returns_session_pointer (E : Env) st p st' :
  newterm E st = Ret p st' ->
  (p = None /\ Xinitscr E 0 [] st = Ret None st') \/
  (exists w s',
     Xinitscr E 0 [] st = Ret (Some w) st' /\ SP st' = Some s' /\
     alive s' = true /\ p = Some (scr_addr s') /\
     set_term p st' = Ret p st' /\
     forall q, q <> p -> set_term q st' = Ret None st').
Proof.
  intros H. unfold newterm in H.
  apply bind_inv in H. destruct H as (w & st1 & HX & H).
  destruct w as [w|].
  - right. cbv [gets] in H. injection H as Hp Hst. subst st1. subst p.
    destruct (Xinitscr_layout E _ _ _ _ _ HX)
      as (s0 & s' & cw & lw & l & a0 & _ & _ & Hs & Hal & _).
    exists w, s'. split; [exact HX|]. split; [exact Hs|].
    split; [exact Hal|].
    assert (Hp : SP_ptr st' = Some (scr_addr s')).
    { unfold SP_ptr. rewrite Hs. reflexivity. }
    split; [exact Hp|]. rewrite Hp.
    split.
    + destruct (set_term_cases (Some (scr_addr s')) st')
        as (r & Hr & [(_ & ->) | (Hn & _)]); [exact Hr | congruence].
    + intros q Hq.
      destruct (set_term_cases q st')
        as (r & Hr & [(Hn & _) | (_ & ->)]); [congruence | exact Hr].
  - left. cbv [ret] in H. injection H as Hp Hst. subst st1. subst p. auto.
Qed.

Lemma newterm_returns_session_pointer_witness :
  (Some 1%positive = None /\
   Xinitscr sample_env 0 [] (startup (mkTerminal 24 80))
   = Ret None alive_24x80) \/
  (exists w s',
     Xinitscr sample_env 0 [] (startup (mkTerminal 24 80))
     = Ret (Some w) alive_24x80 /\
     SP alive_24x80 = Some s' /\ alive s' = true /\
     Some 1%positive = Some (scr_addr s') /\
     set_term (Some 1%positive) alive_24x80
     = Ret (Some 1%positive) alive_24x80 /\
     forall q, q <> Some 1%positive ->
               set_term q alive_24x80 = Ret None alive_24x80).
Proof.
  apply (newterm_returns_session_pointer sample_env
           (startup (mkTerminal 24 80)) (Some 1%positive) alive_24x80).
  reflexivity.
Defined.

(** ** What holds in every reachable state *)

Lemma resize_term_session_inv E nl nc st r st' :
  resize_term E nl nc st = Ret r st' -> session_inv st -> session_inv st'.
Proof.
  intros H (Hw & Hn & Hl). unfold session_inv.
  flat Hw. flat Hn. flat Hl.
  unfold resize_term in H. run H.
  all: flat_goal.
  all: split; [|split; assumption].
  all: intros Hstd.
  all: try (exfalso; apply Hstd; reflexivity).
  all: try (apply Hw; congruence).
  all: try (specialize (Hw ltac:(discriminate)); destruct Hw as (h1 & h2 & h3)).
  all: repeat split; try discriminate; try assumption; try congruence.
Qed.

Lemma delscreen_session_inv sp st st' :
  delscreen sp st = Ret tt st' -> session_inv st -> session_inv st'.
Proof.
  intros H (Hw & Hn & Hl). unfold session_inv.
  flat Hw. flat Hn. flat Hl.
  unfold delscreen in H. run H.
  all: try match goal with
           | H : Fault _ = Ret _ _ |- _ => discriminate H
           end.
  all: flat_goal.
  all: split; [|split; assumption].
  all: first [exact Hw | intros Hstd; exfalso; apply Hstd; reflexivity].
Qed.

Lemma endwin_session_inv st r st' :
  endwin st = Ret r st' -> session_inv st -> session_inv st'.
Proof.
  intros H (Hw & Hn & Hl). unfold session_inv.
  flat Hw. flat Hn. flat Hl.
  unfold endwin in H. run H.
  all: flat_goal.
  all: split; [|split; assumption].
  all: intros Hstd; destruct (Hw Hstd) as (h1 & h2 & h3).
  all: repeat split; try discriminate; assumption.
Qed.

Lemma resume_session_inv st r st' :
  resume st = Ret r st' -> session_inv st -> session_inv st'.
Proof.
  intros H (Hw & Hn & Hl).
  assert (Hst : st' = st \/
                exists s, st' = set_term_open true
                                  (set_SP (Some (set_alive true s)) st)).
  { unfold resume in H.
    destruct (SP st) as [s|]; [destruct (alive s)|]; injection H as _ <-;
      eauto. }
  destruct Hst as [-> | (s & ->)]; [split; auto|].
  unfold session_inv. flat_goal. flat Hw. flat Hn. flat Hl.
  split; [|split; assumption].
  intros Hstd. destruct (Hw Hstd) as (h1 & h2 & h3).
  repeat split; try discriminate; assumption.
Qed.

Lemma user_resize_session_inv rows cols st :
  session_inv st -> session_inv (user_resize rows cols st).
Proof.
  intros (Hw & Hn & Hl). unfold session_inv, user_resize.
  split; [|split; assumption].
  intros Hstd. destruct (Hw Hstd) as (h1 & h2 & h3).
  repeat split; try assumption.
  cbn. destruct (SP st); [discriminate | contradiction].
Qed.

Lemma slot_written_length {A} (n : nat) (x : A) (l : list A) :
  (n <= List.length l)%nat ->
  (S n <= List.length (firstn n l ++ [x] ++ skipn (S n) l))%nat.
Proof.
  intros H. rewrite !length_app, length_firstn. cbn [List.length]. lia.
Qed.

Lemma ripoffline_session_inv ln f st r st' :
  ripoffline ln f st = Ret r st' -> session_inv st -> session_inv st'.
Proof.
  intros H (Hw & Hn & Hl). unfold session_inv.
  unfold ripoffline in H.
  destruct ((linesrippedoff st <? 5) && negb (ln =? 0)) eqn:Hc;
    injection H as _ <-; [|split; [exact Hw | split; assumption]].
  apply andb_true_iff in Hc. destruct Hc as [Hc _]. apply Z.ltb_lt in Hc.
  split; [exact Hw|].
  change (0 <= linesrippedoff st + 1 <= 5 /\
          (Z.to_nat (linesrippedoff st + 1)
           <= List.length
                (firstn (Z.to_nat (linesrippedoff st)) (linesripped st)
                 ++ [mkRIPPED ln f]
                 ++ skipn (S (Z.to_nat (linesrippedoff st))) (linesripped st)))%nat).
  split; [lia|].
  rewrite Z2Nat.inj_add by lia. change (Z.to_nat 1) with 1%nat.
  rewrite Nat.add_1_r. apply slot_written_length. exact Hl.
Qed.

Lemma Xinitscr_session_inv E argc argv st w st' :
  Xinitscr E argc argv st = Ret w st' -> session_inv st -> session_inv st'.
Proof.
  intros H (Hw & Hn & Hl).
  destruct w as [w|].
  - destruct (Xinitscr_layout E _ _ _ _ _ H)
      as (s0 & s' & cw & lw & l & a0 & _ & _ & Hs & _ & _ & _ & _ & _ & _
          & Hc & Hlw & _ & _ & _ & _ & _ & _ & _ & _ & _ & Hoff & Htbl & _).
    unfold session_inv. rewrite Hs, Hc, Hlw, Hoff, Htbl.
    split; [intros _; repeat split; discriminate|].
    split; [lia|]. cbn. lia.
  - destruct (Xinitscr_Ret_inv E _ _ _ _ _ H)
      as [(_ & _ & ->) | [(_ & _ & _ & ->) | (_ & s0 & s1 & _ & K)]].
    + split; auto.
    + split; auto.
    + exfalso.
      destruct K as (_ & _ & _ & _ & _ & _ & _ & _ & _ & K).
      match type of K with
      | Xinitscr_screens _ ?stx = _ =>
          destruct (Xinitscr_screens_layout E stx s1 _ _ eq_refl K)
            as (? & ? & ? & sw & ? & ? & Hw' & _)
      end.
      discriminate Hw'.
Qed.

Lemma reachable_session_inv E st : reachable E st -> session_inv st.
Proof.
  induction 1 as [t | st ln f r st' _ IH H | st argc argv w st' _ IH H
                 | st r st' _ IH H | st r st' _ IH H | st nl nc r st' _ IH H
                 | st sp st' _ IH H | st rows cols _ IH].
  - unfold session_inv. cbn. split; [intros Hc; contradiction|].
    split; lia.
  - eapply ripoffline_session_inv; eauto.
  - eapply Xinitscr_session_inv; eauto.
  - eapply endwin_session_inv; eauto.
  - eapply resume_session_inv; eauto.
  - eapply resize_term_session_inv; eauto.
  - eapply delscreen_session_inv; eauto.
  - apply user_resize_session_inv; auto.
Qed.

(** X21: in every state a program can reach, a non-null [stdscr] comes
    with a session and with both screen buffers, at most five
    registrations are pending, and all of them are in the table. *)
Theorem reachable_windows_have_session (E : Env) st :
  reachable E st ->
  (forall w, stdscr st = Some w ->
     exists s cw lw,
       SP st = Some s /\ curscr st = Some cw /\ pdc_lastscr st = Some lw) /\
  0 <= linesrippedoff st <= 5 /\
  (Z.to_nat (linesrippedoff st) <= List.length (linesripped st))%nat.
Proof.
  intros H. apply reachable_session_inv in H. destruct H as (Hw & Hn & Hl).
  split; [|split; assumption].
  intros w Hstd.
  destruct Hw as (h1 & h2 & h3); [rewrite Hstd; discriminate|].
  destruct (SP st) as [s|]; [|contradiction].
  destruct (curscr st) as [cw|]; [|contradiction].
  destruct (pdc_lastscr st) as [lw|]; [|contradiction].
  exists s, cw, lw. auto.
Qed.

Lemma reachable_windows_have_session_witness :
  (forall w, stdscr alive_24x80 = Some w ->
     exists s cw lw,
       SP alive_24x80 = Some s /\ curscr alive_24x80 = Some cw /\
       pdc_lastscr alive_24x80 = Some lw) /\
  0 <= linesrippedoff alive_24x80 <= 5 /\
  (Z.to_nat (linesrippedoff alive_24x80)
   <= List.length (linesripped alive_24x80))%nat.
Proof.
  apply (reachable_windows_have_session sample_env alive_24x80).
  apply (reach_Xinitscr sample_env (startup (mkTerminal 24 80)) 0 []
           (Some (mkWINDOW 0 0 24 80 0 0 0 false true))).
  - apply reach_startup.
  - reflexivity.
Defined.

(** X22: in every state a program can reach, neither [Xinitscr] nor
    [resize_term] can fault: [Xinitscr] returns or ends the process, and
    [resize_term] returns [OK] or [ERR]. *)
Theorem reachable_calls_never_fault (E : Env) st :
  reachable E st ->
  (forall argc argv st', Xinitscr E argc argv st <> Fault st') /\
  (forall nl nc,
     exists r st', resize_term E nl nc st = Ret r st' /\ (r = OK \/ r = ERR)).
Proof.
  intros H. apply reachable_session_inv in H. destruct H as (Hw & Hn & Hl).
  split.
  - intros argc argv st'. apply Xinitscr_no_fault. exact Hl.
  - intros nl nc. apply resize_term_total. intros Hstd. apply Hw. exact Hstd.
Qed.

Lemma reachable_calls_never_fault_witness :
  (forall argc argv st', Xinitscr sample_env argc argv alive_24x80 <> Fault st') /\
  (forall nl nc,
     exists r st',
       resize_term sample_env nl nc alive_24x80 = Ret r st' /\
       (r = OK \/ r = ERR)).
Proof.
  apply (reachable_calls_never_fault sample_env alive_24x80).
  apply (reach_Xinitscr sample_env (startup (mkTerminal 24 80)) 0 []
           (Some (mkWINDOW 0 0 24 80 0 0 0 false true))).
  - apply reach_startup.
  - reflexivity.
Defined.
